(** * heavyprofile.util: the snapshot differ and the archive fetcher

    A shallow embedding of [heavyprofile/util.py]: the [DiffInfo] change log
    (load, dump, add_new, add_changed, add_deleted, update) and
    [download_file] with [check_exists], followed by the properties the
    specification states about them.

    Conventions.
    - A Python [bytes] value is a [list byte].
    - A Python [str] is a [string], read as the UTF-8 text of the value, so
      that [bytes(data, "utf8")] is the list of its bytes (a [str] that has
      no UTF-8 encoding, one with a lone surrogate, is not covered).
    - A Python [int] is a [Z].
    - A [dict] whose iteration order is observed is an association list in
      insertion order; its keys are pairwise distinct ([dict_wf]).
    - The file system is a finite map from paths to file contents. *)

From Stdlib Require Import ZArith Lia.
From Stdlib Require Import Strings.Byte Strings.Ascii Strings.String.
From stdpp Require Import base option list strings gmap.

Local Open Scope Z_scope.

#[global] Instance byte_eq_dec : EqDecision byte := Byte.byte_eq_dec.

(** ** Python built-ins used by the module *)

Abbreviation bytes := (list byte) (only parsing).

(** [_b(data)]: [bytes(data, "utf8")]. *)
Definition _b (data : string) : bytes := list_byte_of_string data.

Module Py.

(** The bytes that [bytes.strip()] removes: space, tab, line feed,
    carriage return, vertical tab and form feed. *)
Definition isspace (c : byte) : bool :=
  match c with
  | x20 | x09 | x0a | x0d | x0b | x0c => true
  | _ => false
  end.

Fixpoint lstrip (s : bytes) : bytes :=
  match s with
  | [] => []
  | c :: s' => if isspace c then lstrip s' else s
  end.

Definition rstrip (s : bytes) : bytes := reverse (lstrip (reverse s)).

(** [s.strip()] *)
Definition strip (s : bytes) : bytes := rstrip (lstrip s).

(** [s.split(sep)] for a separator of one byte: every occurrence of the
    separator cuts, empty pieces are kept, and the empty input gives one
    empty piece. *)
Fixpoint split (sep : byte) (s : bytes) : list bytes :=
  match s with
  | [] => [[]]
  | c :: s' =>
      if decide (c = sep) then [] :: split sep s'
      else match split sep s' with
           | w :: ws => (c :: w) :: ws
           | [] => [[c]]
           end
  end.

(** [sep.join(l)] *)
Fixpoint join (sep : bytes) (l : list bytes) : bytes :=
  match l with
  | [] => []
  | [x] => x
  | x :: l' => x ++ sep ++ join sep l'
  end.

(** A [dict] in insertion order. *)
Abbreviation dict V := (list (string * V)) (only parsing).

Definition items {V} (d : dict V) : list (string * V) := d.

Definition keys {V} (d : dict V) : list string := d.*1.

(** [d[k]], with [None] when [k not in d]. *)
Fixpoint get {V} (d : dict V) (k : string) : option V :=
  match d with
  | [] => None
  | (k', v) :: d' => if decide (k' = k) then Some v else get d' k
  end.

(** [k in d] *)
Definition contains {V} (d : dict V) (k : string) : bool :=
  bool_decide (is_Some (get d k)).

(** The keys of a dictionary are pairwise distinct. *)
Definition dict_wf {V} (d : dict V) : Prop := NoDup (keys d).

(** [s.split(sep)] on [str], for a separator of one character. *)
Fixpoint split_str (sep : ascii) (s : string) : list string :=
  match s with
  | EmptyString => [EmptyString]
  | String c s' =>
      if decide (c = sep) then EmptyString :: split_str sep s'
      else match split_str sep s' with
           | w :: ws => String c w :: ws
           | [] => [String c EmptyString]
           end
  end.

(** [l[-1]] on the result of a split, which is never empty. *)
Definition last_item (l : list string) : string := List.last l EmptyString.

End Py.

(** ** tarfile metadata

    A snapshot maps a path to [info], a sequence whose first component is a
    [tarfile.TarInfo]; [info[0].get_info()] is a dictionary that has the key
    ['chksum'] (an [int]) next to the other header fields. *)

Record TarInfo := mkTarInfo {
  chksum : Z;
  fields : list (string * string)
}.

Record FileInfo := mkFileInfo {
  member : TarInfo;        (* info[0] *)
  rest : list string       (* info[1:] *)
}.

#[global] Instance TarInfo_eq_dec : EqDecision TarInfo.
Proof. solve_decision. Defined.

#[global] Instance FileInfo_eq_dec : EqDecision FileInfo.
Proof. solve_decision. Defined.

Abbreviation Snapshot := (Py.dict FileInfo) (only parsing).

(** ** class DiffInfo *)

Module DiffInfo.

Record t := mk {
  _info : list bytes;
  changed : Z;
  new : Z;
  deleted : Z
}.

Definition NEW_ : bytes := Eval cbv in _b "NEW:".
Definition CHANGED_ : bytes := Eval cbv in _b "CHANGED:".
Definition DELETED_ : bytes := Eval cbv in _b "DELETED:".

(** [__init__] *)
Definition init : t := {| _info := []; changed := 0; new := 0; deleted := 0 |}.

(** [__repr__]: the numbers of new, modified and deleted files that the
    text shows, in its order. *)
Definition repr (self : t) : Z * Z * Z := (new self, changed self, deleted self).

(** [__len__] *)
Definition len (self : t) : Z := Z.of_nat (length (_info self)).

(** [__iter__]: each change split at its colons. *)
Definition iter (self : t) : list (list bytes) :=
  map (Py.split ":"%byte) (_info self).

Definition set_info (self : t) (l : list bytes) : t :=
  {| _info := l; changed := changed self; new := new self; deleted := deleted self |}.

(** One turn of the loop of [load]. *)
Definition load_line (self : t) (line : bytes) : t :=
  let line := Py.strip line in
  if decide (line = []) then self
  else set_info self (_info self ++ [line]).

(** [load]: the list is emptied in place, then refilled line by line.
    The three counters are not assigned. *)
Definition load (self : t) (data : bytes) : t :=
  fold_left load_line (Py.split "010"%byte data) (set_info self []).

Definition dump (self : t) : bytes := Py.join ["010"%byte] (_info self).

Definition add_changed (self : t) (name : bytes) : t :=
  {| _info := _info self ++ [CHANGED_ ++ name];
     changed := changed self + 1; new := new self; deleted := deleted self |}.

Definition add_new (self : t) (name : bytes) : t :=
  {| _info := _info self ++ [NEW_ ++ name];
     changed := changed self; new := new self + 1; deleted := deleted self |}.

Definition add_deleted (self : t) (name : bytes) : t :=
  {| _info := _info self ++ [DELETED_ ++ name];
     changed := changed self; new := new self; deleted := deleted self + 1 |}.

(** One turn of the first loop of [update]; the state is the object and
    the list [files]. *)
Definition update_current (previous_files : Snapshot)
    (st : t * list FileInfo) (item : string * FileInfo) : t * list FileInfo :=
  let '(self, files) := st in
  let '(name, info) := item in
  match Py.get previous_files name with
  | None =>                                   (* name not in previous_files *)
      (add_new self (_b name), files ++ [info])
  | Some previous =>
      let old := chksum (member previous) in
      let new := chksum (member info) in
      if decide (old ≠ new) then (add_changed self (_b name), files ++ [info])
      else (self, files)
  end.

(** One turn of the second loop of [update]. *)
Definition update_previous (current_files : Snapshot)
    (self : t) (item : string * FileInfo) : t :=
  let '(name, info) := item in
  if negb (Py.contains current_files name) then add_deleted self (_b name)
  else self.

(** [update]: the object after the call and the returned list. *)
Definition update (self : t) (current_files previous_files : Snapshot)
    : t * list FileInfo :=
  let '(self, files) :=
    fold_left (update_current previous_files) (Py.items current_files) (self, []) in
  let self := fold_left (update_previous current_files) (Py.items previous_files) self in
  (self, files).

End DiffInfo.

(** ** download_file

    The network and the file system are explicit.  A call of [requests.head]
    or [requests.get] is a look-up in a [Network]: the transport is taken to
    deliver a response for every request, whatever its status.  The progress
    bar of [clint] only displays; it hands every chunk on unchanged and is
    left out.  [open(target, 'wb')] and the constructor [Signer()] are taken
    to succeed. *)

Module Fetch.

Inductive Exception :=
| ArchiveNotFound (url : string)
| ArchiveError (target : string)
| TypeError                              (* int(None) *)
| ValueError                             (* int() of a text that is no integer *)
| FileNotFoundError (path : string).

(** The messages handed to [logger.msg]. *)
Inductive Msg :=
| CheckIfExists (archive : string)
| CannotFind (url : string)
| Downloading (url : string)
| AlreadyDownloaded
| BadChecksum.

(** A [requests.Response].  [headers] is keyed by the header name in lower
    case (the dictionary of [requests] ignores case); [iter_content] is the
    sequence of chunks that streaming the body yields. *)
Record Response := mkResponse {
  status_code : Z;
  headers : gmap string string;
  text : string;
  iter_content : list bytes
}.

Record Network := mkNetwork {
  head : string → Response;               (* requests.head(url) *)
  get : string → Response                 (* requests.get(url) *)
}.

Record World := mkWorld {
  fs : gmap string (list byte);
  log : list Msg
}.

Inductive result (A : Type) :=
| Return (a : A)
| Raise (e : Exception).
Arguments Return {A} a.
Arguments Raise {A} e.

(** Computations that read and write the world and may raise. *)
Definition M (A : Type) : Type := World → result A * World.

#[global] Instance M_ret : MRet M := λ A a w, (Return a, w).

#[global] Instance M_bind : MBind M := λ A B f m w,
  match m w with
  | (Return a, w') => f a w'
  | (Raise e, w') => (Raise e, w')
  end.

Definition raise {A} (e : Exception) : M A := λ w, (Raise e, w).

(** [logger.msg] *)
Definition msg (m : Msg) : M unit :=
  λ w, (Return (), {| fs := fs w; log := log w ++ [m] |}).

(** [os.path.exists] *)
Definition path_exists (path : string) : M bool :=
  λ w, (Return (bool_decide (is_Some (fs w !! path))), w).

(** [open(target, 'wb')]: the file is created, or emptied. *)
Definition open_wb (target : string) : M unit :=
  λ w, (Return (), {| fs := <[target := []]> (fs w); log := log w |}).

(** [f.write(chunk); f.flush()] on the file opened at [target]. *)
Definition write (target : string) (chunk : bytes) : M unit :=
  λ w, (Return (),
        {| fs := <[target := default [] (fs w !! target) ++ chunk]> (fs w);
           log := log w |}).

(** The body of the download loop, run over the chunks in order. *)
Fixpoint write_chunks (target : string) (chunks : list bytes) : M unit :=
  match chunks with
  | [] => mret ()
  | chunk :: chunks' =>
      (if decide (chunk ≠ []) then write target chunk else mret ()) ≫= λ _,
      write_chunks target chunks'
  end.

Section WithCollaborators.

(** [Signer.checksum] of [heavyprofile.signing], as a function of the
    content of the file: the hexadecimal SHA-256 digest. *)
Variable checksum : bytes → string.

(** The built-in [int] on a [str]: [None] where it raises [ValueError]. *)
Variable py_int : string → option Z.

Variable net : Network.

(** [signer.checksum(path)] *)
Definition signer_checksum (path : string) : M string :=
  λ w, match fs w !! path with
       | Some data => (Return (checksum data), w)
       | None => (Raise (FileNotFoundError path), w)
       end.

(** [int(x)] for [x] the result of [headers.get]. *)
Definition int_ (x : option string) : M Z :=
  match x with
  | None => raise TypeError
  | Some s => match py_int s with
              | Some n => mret n
              | None => raise ValueError
              end
  end.

Definition check_exists (archive : string) (server : option string)
    : M (bool * gmap string string) :=
  msg (CheckIfExists archive) ≫= λ _,
  let archive := match server with
                 | Some server => (server +:+ "/" +:+ archive)%string
                 | None => archive
                 end in
  let resp := head net archive in
  mret (bool_decide (status_code resp = 200), headers resp).

(** The steps after the look at the local file: the streamed download
    and the comparison that follows it.  [check] is the text fetched
    from the companion resource, present when [check_file] holds. *)
Definition download_and_check (url target : string) (check_file : bool)
    (check : option string) : M string :=
  let req := get net url in
  int_ (headers req !! "content-length"%string) ≫= λ total_length,
  open_wb target ≫= λ _,
  write_chunks target (iter_content req) ≫= λ _,
  (if check_file then
     signer_checksum target ≫= λ actual, mret (bool_decide (check ≠ Some actual))
   else mret false) ≫= λ bad : bool,
  if bad then msg BadChecksum ≫= λ _, raise (ArchiveError target)
  else mret target.

Definition download_file (url : string) (target : option string)
    (check_file : bool) : M string :=
  (* signer = Signer() *)
  check_exists url None ≫= λ '(present, headers),
  if negb present then msg (CannotFind url) ≫= λ _, raise (ArchiveNotFound url)
  else
  msg (Downloading url) ≫= λ _,
  let target := match target with
                | None => Py.last_item (Py.split_str "/"%char url)
                | Some target => target
                end in
  let check := if check_file
               then Some (text (get net (url +:+ ".sha256")))
               else None in
  path_exists target ≫= λ there : bool,
  (if there then
     if negb check_file then mret true           (* return target *)
     else
       signer_checksum target ≫= λ existing,
       if decide (Some existing = check)
       then msg AlreadyDownloaded ≫= λ _, mret true   (* return target *)
       else mret false
   else mret false) ≫= λ returned : bool,
  if returned then mret target
  else download_and_check url target check_file check.

End WithCollaborators.

End Fetch.

(** ** SHA-256 *)

(** Modelled from the spec: [Signer.checksum] of [heavyprofile/signing.py],
    which is not among the sources.  The specification gives it as the
    SHA-256 digest of the file content, as lower-case hexadecimal text.
    [download_file] above takes the digest as a parameter; [hexdigest]
    below instantiates it in the closed examples, and the test vectors
    further down compare it with the published digests. *)

Module Sha256.

Definition w32 (x : Z) : Z := Z.land x 0xffffffff.
Definition add32 (x y : Z) : Z := w32 (x + y).
Definition rotr (n x : Z) : Z := Z.lor (Z.shiftr x n) (w32 (Z.shiftl x (32 - n))).
Definition xor3 (x y z : Z) : Z := Z.lxor (Z.lxor x y) z.

Definition Ch (x y z : Z) : Z :=
  Z.lxor (Z.land x y) (Z.land (Z.lxor x 0xffffffff) z).
Definition Maj (x y z : Z) : Z :=
  xor3 (Z.land x y) (Z.land x z) (Z.land y z).
Definition Sigma0 (x : Z) : Z := xor3 (rotr 2 x) (rotr 13 x) (rotr 22 x).
Definition Sigma1 (x : Z) : Z := xor3 (rotr 6 x) (rotr 11 x) (rotr 25 x).
Definition sigma0 (x : Z) : Z := xor3 (rotr 7 x) (rotr 18 x) (Z.shiftr x 3).
Definition sigma1 (x : Z) : Z := xor3 (rotr 17 x) (rotr 19 x) (Z.shiftr x 10).

(** The round constants and the initial state are the first 32 bits of the
    fractional parts of the cube roots of the first 64 primes and of the
    square roots of the first 8. *)
Definition is_prime (n : Z) : bool :=
  forallb (λ d, negb (n mod Z.of_nat d =? 0)) (seq 2 (Z.to_nat n - 2)).

Definition primes : list Z :=
  Eval vm_compute in filter (λ n, is_prime n = true) (Z.of_nat <$> seq 2 310).

(** The integer cube root, one bit at a time from the top. *)
Definition icbrt (n : Z) : Z :=
  fold_left (λ x b, let y := x + 2 ^ Z.of_nat b in if y ^ 3 <=? n then y else x)
            (reverse (seq 0 40)) 0.

Definition K : list Z :=
  Eval vm_compute in (λ p, w32 (icbrt (p * 2 ^ 96))) <$> primes.

Definition H0 : list Z :=
  Eval vm_compute in (λ p, w32 (Z.sqrt (p * 2 ^ 64))) <$> take 8 primes.

(** The message, a one bit, zero bits up to 56 modulo 64 bytes, and the
    length in bits as 64 bits, most significant byte first. *)
Definition be64 (n : Z) : list Z :=
  map (λ i, Z.land (Z.shiftr n (8 * i)) 0xff) [7; 6; 5; 4; 3; 2; 1; 0].

Definition pad (m : list Z) : list Z :=
  let l := Z.of_nat (length m) in
  m ++ [0x80] ++ replicate (Z.to_nat ((55 - l) mod 64)) 0 ++ be64 (8 * l).

Fixpoint words (bs : list Z) : list Z :=
  match bs with
  | a :: b :: c :: d :: bs' =>
      Z.lor (Z.lor (Z.shiftl a 24) (Z.shiftl b 16)) (Z.lor (Z.shiftl c 8) d)
      :: words bs'
  | _ => []
  end.

(** The message schedule, latest word first. *)
Fixpoint extend (n : nat) (w : list Z) : list Z :=
  match n with
  | O => w
  | S n' =>
      let at_ i := nth i w 0 in
      extend n' (add32 (add32 (sigma1 (at_ 1%nat)) (at_ 6%nat))
                       (add32 (sigma0 (at_ 14%nat)) (at_ 15%nat)) :: w)
  end.

Definition schedule (block : list Z) : list Z := rev (extend 48 (rev block)).

Definition round (s : list Z) (kw : Z * Z) : list Z :=
  match s with
  | [a; b; c; d; e; f; g; h] =>
      let t1 := add32 (add32 (add32 h (Sigma1 e)) (add32 (Ch e f g) kw.1)) kw.2 in
      let t2 := add32 (Sigma0 a) (Maj a b c) in
      [add32 t1 t2; a; b; c; add32 d t1; e; f; g]
  | _ => s
  end.

Definition compress (h : list Z) (block : list Z) : list Z :=
  zip_with add32 h (fold_left round (zip K (schedule block)) h).

Fixpoint blocks (n : nat) (h : list Z) (ws : list Z) : list Z :=
  match n with
  | O => h
  | S n' => blocks n' (compress h (take 16 ws)) (drop 16 ws)
  end.

Definition digest (m : bytes) : list Z :=
  let ws := words (pad (map (λ b, Z.of_N (Byte.to_N b)) m)) in
  blocks (length ws / 16) H0 ws.

Definition hexdigit (n : Z) : ascii :=
  ascii_of_N (Z.to_N (if decide (n < 10) then 48 + n else 87 + n)).

Definition hexword (w : Z) : string :=
  string_of_list_ascii
    (map (λ i, hexdigit (Z.land (Z.shiftr w (4 * i)) 0xf)) [7; 6; 5; 4; 3; 2; 1; 0]).

(** [hashlib.sha256(m).hexdigest()] *)
Definition hexdigest (m : bytes) : string :=
  String.concat "" (map hexword (digest m)).

End Sha256.

(** Digits only: the built-in [int] on the unsigned decimal texts that a
    content length is made of (the built-in accepts more: signs, blanks
    around the number, underscores between digits).  It instantiates the
    parameter [py_int] in the closed examples. *)
Fixpoint decimal_from (acc : Z) (s : string) : option Z :=
  match s with
  | EmptyString => Some acc
  | String c s' =>
      let n := Z.of_N (N_of_ascii c) in
      if decide (48 ≤ n ≤ 57) then decimal_from (10 * acc + (n - 48)) s'
      else None
  end.

Definition decimal_int (s : string) : option Z :=
  match s with
  | EmptyString => None
  | _ => decimal_from 0 s
  end.

(** ** Change records, as the specification names them *)

Inductive Kind := NEW | CHANGED | DELETED.

#[global] Instance Kind_eq_dec : EqDecision Kind.
Proof. solve_decision. Defined.

Definition tag (k : Kind) : bytes :=
  match k with
  | NEW => _b "NEW"
  | CHANGED => _b "CHANGED"
  | DELETED => _b "DELETED"
  end.

(** The record [KIND:path]. *)
Definition record (k : Kind) (path : bytes) : bytes := tag k ++ ":"%byte :: path.

(** The tag of a held record: what [DiffInfo.__iter__] yields first, the
    bytes before the first colon. *)
Definition tag_of (r : bytes) : bytes := List.hd [] (Py.split ":"%byte r).

(** The number of held records of a kind, by classifying each record by its
    tag: the recomputation of a counter that the specification asks for. *)
Definition count_kind (k : Kind) (l : list bytes) : Z :=
  Z.of_nat (length (filter (λ r, tag_of r = tag k) l)).

(** The invariant of the specification: each counter is the number of held
    records of its kind. *)
Definition counters_agree (d : DiffInfo.t) : Prop :=
  DiffInfo.new d = count_kind NEW (DiffInfo._info d)
  ∧ DiffInfo.changed d = count_kind CHANGED (DiffInfo._info d)
  ∧ DiffInfo.deleted d = count_kind DELETED (DiffInfo._info d).

(** What [update] decides for one entry of the current snapshot. *)
Definition change_of (previous : Snapshot) (item : string * FileInfo) : option Kind :=
  match Py.get previous item.1 with
  | None => Some NEW
  | Some p =>
      if decide (chksum (member p) ≠ chksum (member item.2)) then Some CHANGED
      else None
  end.

(** A path that a line-oriented log can hold: no line feed inside, no
    white space at the end. *)
Definition path_ok (p : bytes) : Prop :=
  ("010"%byte ∉ p) ∧ (∀ c, last p = Some c → Py.isspace c = false).

(** ** The loops of [update] entry by entry *)

Definition nonempty (s : list byte) : Prop := s ≠ [].

(** The record that the first loop appends for an entry, if any. *)
Definition current_record (prev : Snapshot) (item : string * FileInfo)
    : option (list byte) :=
  k ← change_of prev item; Some (record k (_b item.1)).

(** The record that the second loop appends for an entry, if any. *)
Definition previous_record (cur : Snapshot) (item : string * FileInfo)
    : option (list byte) :=
  if Py.contains cur item.1 then None else Some (record DELETED (_b item.1)).

(** The entries of the current snapshot that the first loop records. *)
Definition selected (prev : Snapshot) (item : string * FileInfo) : Prop :=
  is_Some (change_of prev item).

#[global] Instance selected_dec prev item : Decision (selected prev item).
Proof. unfold selected. apply _. Defined.

Definition bump (k k' : Kind) : Z := if decide (k = k') then 1 else 0.

Definition kinds (prev : Snapshot) (items : list (string * FileInfo)) : list Kind :=
  omap (change_of prev) items.

Definition occurrences (k : Kind) (ks : list Kind) : Z :=
  Z.of_nat (length (filter (λ k', k' = k) ks)).

(** [add_new], [add_changed] or [add_deleted], by kind. *)
Definition add (k : Kind) (self : DiffInfo.t) (name : list byte) : DiffInfo.t :=
  match k with
  | NEW => DiffInfo.add_new self name
  | CHANGED => DiffInfo.add_changed self name
  | DELETED => DiffInfo.add_deleted self name
  end.

(** A kind and a path, as the record held for them. *)
Definition entry (e : Kind * string) : list byte := record e.1 (_b e.2).

(** The entries that the two loops of [update] record, as kinds and paths. *)
Definition current_changes (prev : Snapshot) (cur : Snapshot) : list (Kind * string) :=
  omap (λ item, k ← change_of prev item; Some (k, item.1)) cur.

Definition previous_changes (cur : Snapshot) (prev : Snapshot) : list (Kind * string) :=
  omap (λ item, if Py.contains cur item.1 then None else Some (DELETED, item.1)) prev.

(** The records that one call of [update] appends. *)
Definition produced (self : DiffInfo.t) (cur prev : Snapshot) : list (list byte) :=
  drop (length (DiffInfo._info self)) (DiffInfo._info (DiffInfo.update self cur prev).1).

(** What becomes of a path, from its checksum in the current and in the
    previous snapshot alone. *)
Definition verdict (current previous : option Z) : option Kind :=
  match current, previous with
  | Some new, None => Some NEW
  | Some new, Some old => if decide (old ≠ new) then Some CHANGED else None
  | None, Some old => Some DELETED
  | None, None => None
  end.

(** The checksum that a snapshot holds for a path. *)
Definition checksum_at (d : Snapshot) (p : string) : option Z :=
  (λ i, chksum (member i)) <$> Py.get d p.

(** ** A server, for the closed examples

    The artifact is there ([HEAD] and [GET] answer 200) and streams the
    given chunks under the given headers; the companion resource answers
    with the given status and text; everything else is a 404. *)

Definition artifact : string := "https://ftp.mozilla.org/pub/firefox/nightly/firefox.dmg".

Definition not_found : Fetch.Response :=
  {| Fetch.status_code := 404; Fetch.headers := ∅;
     Fetch.text := "Not Found"; Fetch.iter_content := [_b "Not Found"] |}.

Definition serve (headers : gmap string string) (chunks : list (list byte))
    (companion_status : Z) (companion_text : string) : Fetch.Network :=
  {| Fetch.head := λ url,
       if decide (url = artifact)
       then {| Fetch.status_code := 200; Fetch.headers := headers;
               Fetch.text := ""; Fetch.iter_content := [] |}
       else not_found;
     Fetch.get := λ url,
       if decide (url = artifact)
       then {| Fetch.status_code := 200; Fetch.headers := headers;
               Fetch.text := string_of_list_byte (concat chunks);
               Fetch.iter_content := chunks |}
       else if decide (url = (artifact +:+ ".sha256")%string)
       then {| Fetch.status_code := companion_status; Fetch.headers := ∅;
               Fetch.text := companion_text;
               Fetch.iter_content := [_b companion_text] |}
       else not_found |}.

Definition empty_world : Fetch.World := {| Fetch.fs := ∅; Fetch.log := [] |}.

(** [download_file] with SHA-256 for the checksum and decimal texts for
    [int]. *)
Definition download_file_sha256 : Fetch.Network → string → option string → bool
    → Fetch.M string :=
  Fetch.download_file Sha256.hexdigest decimal_int.

(** The target of a call: the given one, or the last segment of the URL. *)
Definition target_of (url : string) (target : option string) : string :=
  match target with
  | None => Py.last_item (Py.split_str "/"%char url)
  | Some target => target
  end.

(** ** Snapshots, for the closed examples *)

(** A file known by its checksum alone. *)
Definition file (c : Z) : FileInfo :=
  {| member := {| chksum := c; fields := [] |}; rest := [] |}.

Definition current_ab : Snapshot := [("a"%string, file 1); ("b"%string, file 2)].
Definition current_ba : Snapshot := [("b"%string, file 2); ("a"%string, file 1)].
Definition previous_ac : Snapshot := [("a"%string, file 1); ("c"%string, file 3)].
Definition previous_ca : Snapshot := [("c"%string, file 3); ("a"%string, file 1)].

(** One new file, whose name ends in a space. *)
Definition current_spaced : Snapshot := [("a "%string, file 1)].

(** One new file, whose name holds a line feed between [a] and [b]. *)
Definition current_two_lines : Snapshot :=
  [(String "a" (String "010" (String "b" EmptyString)), file 1)].

(** ** More of Python's [str] *)

Module PyStr.

(** [c in s], for one character. *)
Fixpoint has (c : ascii) (s : string) : bool :=
  match s with
  | EmptyString => false
  | String c' s' => if decide (c' = c) then true else has c s'
  end.

(** [s.endswith(suffix)]: the suffix is the text itself or ends its tail. *)
Fixpoint endswith (s suffix : string) : bool :=
  if decide (s = suffix) then true
  else match s with
       | EmptyString => false
       | String _ s' => endswith s' suffix
       end.

(** [s[:-n]] for a positive [n]: all but the last [n] characters, nothing
    when there are no more than [n]. *)
Definition drop_last (n : nat) (s : string) : string :=
  substring 0 (String.length s - n) s.

End PyStr.

(** ** get_firefox_download_link and latest_nightly

    [platform.system()] and [platform.machine()] are parameters, and so is
    the parser: [hrefs_of page] stands for the [href] of every anchor that
    [BeautifulSoup(page, "html.parser").find_all('a', href=True)] finds, in
    the order of the page.  A call of [os.system], [time.sleep] or
    [shutil.rmtree] is recorded, in order; what the command does to the
    file system is not modelled, and the status that [os.system] returns is
    ignored, as the code ignores it. *)

Module Nightly.

Inductive Exception :=
| NotImplementedError (system : string)
| PlainException                              (* raise Exception() *)
| Download (e : Fetch.Exception).             (* raised by download_file *)

Inductive result (A : Type) :=
| Return (a : A)
| Raise (e : Exception).
Arguments Return {A} a.
Arguments Raise {A} e.

(** The messages of the logger: those of [download_file], and the one of
    the exit path. *)
Inductive Message :=
| Fetching (m : Fetch.Msg)
| UnmountingFirefox.

Inductive Call :=
| System (cmd : string)                       (* os.system(cmd) *)
| Sleep (seconds : Z)                         (* time.sleep(seconds) *)
| Rmtree (path : string).                     (* shutil.rmtree(path) *)

Record Host := mkHost {
  fs : gmap string (list byte);
  log : list Message;
  calls : list Call
}.

Definition link : string :=
  "https://ftp.mozilla.org/pub/firefox/nightly/latest-mozilla-central/".

Definition say (m : Message) (h : Host) : Host :=
  {| fs := fs h; log := log h ++ [m]; calls := calls h |}.

Definition call (c : Call) (h : Host) : Host :=
  {| fs := fs h; log := log h; calls := calls h ++ [c] |}.

Section WithPlatform.

Variable system machine : string.
Variable hrefs_of : string → list string.
Variable checksum : list byte → string.
Variable py_int : string → option Z.
Variable net : Fetch.Network.

(** The first branch of [get_firefox_download_link]. *)
Definition extension : result string :=
  if decide (system = "Darwin"%string) then Return ".dmg"%string
  else if decide (system = "Linux"%string)
       then Return (".linux-" +:+ machine +:+ ".tar.bz2")%string
       else Raise (NotImplementedError system).

(** Its loop over the anchors. *)
Fixpoint first_link (extension : string) (hrefs : list string) : result string :=
  match hrefs with
  | [] => Raise PlainException
  | href :: hrefs' =>
      if PyStr.endswith href extension
      then Return ("https://ftp.mozilla.org" +:+ href)%string
      else first_link extension hrefs'
  end.

Definition get_firefox_download_link : result string :=
  match extension with
  | Raise e => Raise e
  | Return extension =>
      let page := Fetch.text (Fetch.get net link) in
      first_link extension (hrefs_of page)
  end.

(** [download_file(url, check_file=False)] run from a host: its messages
    join the log of the host in their order. *)
Definition download_unchecked (url : string) (h : Host) : result string * Host :=
  let '(r, w) := Fetch.download_file checksum py_int net url None false
                   {| Fetch.fs := fs h; Fetch.log := [] |} in
  (match r with
   | Fetch.Return target => Return target
   | Fetch.Raise e => Raise (Download e)
   end,
   {| fs := Fetch.fs w; log := log h ++ (Fetching <$> Fetch.log w); calls := calls h |}).

(** [latest_nightly] up to its [yield]: what is yielded, and [mounted]. *)
Definition enter (binary : option string) (h : Host)
    : result (option string * bool) * Host :=
  match binary with
  | Some b => (Return (Some b, false), h)
  | None =>
      match get_firefox_download_link with
      | Raise e => (Raise e, h)
      | Return nightly_archive =>
          let h := say (Fetching (Fetch.Downloading nightly_archive)) h in
          match download_unchecked nightly_archive h with
          | (Raise e, h) => (Raise e, h)
          | (Return target, h) =>
              if decide (system = "Darwin"%string) then
                let cmd := ("hdiutil attach -mountpoint /Volumes/Firefox "
                            +:+ target)%string in
                let h := call (System cmd) h in
                (Return (Some ("/Volumes/Firefox/FirefoxNightly.app"
                               +:+ "/Contents/MacOS/firefox")%string, true), h)
              else if decide (system = "Linux"%string) then
                let h := call (System ("bunzip2 " +:+ target)%string) h in
                let h := call (System ("tar -xvf "
                                       +:+ PyStr.drop_last 4 target)%string) h in
                (Return (Some "firefox/firefox"%string, true), h)
              else (Return (None, true), h)
          end
      end
  end.

(** The [finally] block. *)
Definition leave (mounted : bool) (h : Host) : Host :=
  if mounted then
    if decide (system = "Darwin"%string) then
      let h := say UnmountingFirefox h in
      let h := call (Sleep 10) h in
      call (System "hdiutil detach /Volumes/Firefox") h
    else if decide (system = "Linux"%string) then
      call (Rmtree "firefox") h
    else h
  else h.

(** [with latest_nightly(binary) as b: body(b)]: the block runs only when
    the entry did not raise, and the [finally] block runs when the block
    returns as when it raises. *)
Definition with_latest_nightly {A} (binary : option string)
    (body : option string → Host → result A * Host) (h : Host) : result A * Host :=
  match enter binary h with
  | (Raise e, h) => (Raise e, h)
  | (Return (b, mounted), h) =>
      let '(r, h) := body b h in
      (r, leave mounted h)
  end.

End WithPlatform.

End Nightly.

(** ** verify

    [hashlib.sha256()] is an object that collects what [update] is given;
    its [hexdigest] is the SHA-256 of the whole, as [Sha256.hexdigest].  The
    companion file is read as text, the encoding of the locale being taken
    to be UTF-8: bytes that are no UTF-8 text raise [UnicodeDecodeError],
    and the line ends are translated as Python does on reading.  A [str] is
    kept as its UTF-8 bytes, as everywhere in this file.  [Signer] of
    [heavyprofile.signing] is a parameter. *)

Module Verify.

(** [f.read(n)] on the bytes not yet read: the chunk and what is left. *)
Definition read (n : nat) (rest : list byte) : list byte * list byte :=
  (take n rest, drop n rest).

(** The loop [for chunk in iter(lambda: f.read(n), b""): h.update(chunk)]:
    [fed] is what the hash object was given so far.  It ends at the first
    empty chunk.  [turns] bounds the number of turns; a turn that goes on
    has read at least one byte, so the number of bytes left is enough. *)
Fixpoint feed (turns n : nat) (rest fed : list byte) : list byte :=
  let chunk := (read n rest).1 in
  if decide (chunk = []) then fed
  else match turns with
       | O => fed
       | S turns' => feed turns' n (read n rest).2 (fed ++ chunk)
       end.

(** The first block of [verify]: the digest of the file in chunks of 4096
    bytes. *)
Definition hash_file (content : list byte) : string :=
  Sha256.hexdigest (feed (length content) 4096 content []).

(** Reading in text mode translates [\r\n] and a lone [\r] to [\n]. *)
Fixpoint universal_newlines (s : list byte) : list byte :=
  match s with
  | [] => []
  | c :: s' =>
      if decide (c = "013"%byte) then
        "010"%byte :: match s' with
                      | c' :: s'' =>
                          if decide (c' = "010"%byte) then universal_newlines s''
                          else universal_newlines s'
                      | [] => []
                      end
      else c :: universal_newlines s'
  end.

(** The byte [b] lies between [lo] and [hi]. *)
Definition between (lo hi : N) (b : byte) : bool :=
  ((lo <=? Byte.to_N b) && (Byte.to_N b <=? hi))%N.

(** A continuation byte, [10xxxxxx]. *)
Definition continues (b : byte) : bool := between 128 191 b.

(** The second byte of a sequence of three: no overlong form after [E0], no
    surrogate after [ED]. *)
Definition second_of_three (b0 b1 : byte) : bool :=
  (between 224 224 b0 && between 160 191 b1)
  || (between 225 236 b0 && continues b1)
  || (between 237 237 b0 && between 128 159 b1)
  || (between 238 239 b0 && continues b1).

(** The second byte of a sequence of four: no overlong form after [F0],
    nothing above U+10FFFF after [F4]. *)
Definition second_of_four (b0 b1 : byte) : bool :=
  (between 240 240 b0 && between 144 191 b1)
  || (between 241 243 b0 && continues b1)
  || (between 244 244 b0 && between 128 143 b1).

(** What the strict UTF-8 decoder accepts. *)
Fixpoint valid_utf8 (s : list byte) : bool :=
  match s with
  | [] => true
  | b0 :: s1 =>
      if between 0 127 b0 then valid_utf8 s1
      else match s1 with
           | [] => false
           | b1 :: s2 =>
               if between 194 223 b0 then continues b1 && valid_utf8 s2
               else match s2 with
                    | [] => false
                    | b2 :: s3 =>
                        if between 224 239 b0
                        then second_of_three b0 b1 && continues b2 && valid_utf8 s3
                        else match s3 with
                             | [] => false
                             | b3 :: s4 =>
                                 second_of_four b0 b1 && continues b2
                                 && continues b3 && valid_utf8 s4
                             end
                    end
           end
  end.

(** [open(path).read()] on the content of the file: [None] when the
    decoder raises. *)
Definition read_text (content : list byte) : option string :=
  if valid_utf8 content
  then Some (string_of_list_byte (universal_newlines content))
  else None.

Inductive Exception (SignerError : Type) :=
| FileNotFoundError (path : string)
| UnicodeDecodeError
| WrongHash                                   (* ValueError("Wrong Hash") *)
| FromSigner (e : SignerError).
Arguments FileNotFoundError {SignerError} path.
Arguments UnicodeDecodeError {SignerError}.
Arguments WrongHash {SignerError}.
Arguments FromSigner {SignerError} e.

Section WithSigner.

Variable SignerError : Type.

(** [Signer(pem_file, pem_password).verify(filename, data)] in a file
    system: [None] when it returns, the exception it raises otherwise. *)
Variable signer_verify :
  option string → option string → string → list byte → gmap string (list byte)
  → option SignerError.

(** [verify]: [None] when it returns, the exception it raises otherwise. *)
Definition verify (filename : string) (pem_file pem_password : option string)
    (fs : gmap string (list byte)) : option (Exception SignerError) :=
  match fs !! filename with
  | None => Some (FileNotFoundError filename)
  | Some content =>
      let founded_hash := hash_file content in
      match fs !! (filename +:+ ".sha256")%string with
      | None => Some (FileNotFoundError (filename +:+ ".sha256")%string)
      | Some companion =>
          match read_text companion with
          | None => Some UnicodeDecodeError
          | Some wanted_hash =>
              if decide (founded_hash ≠ wanted_hash) then Some WrongHash
              else
                let founded_hash := _b founded_hash in
                FromSigner <$> signer_verify pem_file pem_password filename
                                 founded_hash fs
          end
      end
  end.

End WithSigner.

End Verify.

(** ** A page of links and its server, for the closed examples

    The page lists one [href] per line, and [one_per_line] reads it so; it
    stands in for the parser.  The server answers for the page and for the
    archive that the second line names. *)

Definition nightly_href : string :=
  "/pub/firefox/nightly/latest-mozilla-central/firefox-70.0a1.en-US.linux-x86_64.tar.bz2".

Definition nightly_archive : string := ("https://ftp.mozilla.org" +:+ nightly_href)%string.

Definition nightly_page : string :=
  ("/pub/firefox/nightly/" +:+ String "010" nightly_href)%string.

Definition one_per_line (page : string) : list string := Py.split_str "010" page.

Definition nightly_server : Fetch.Network :=
  {| Fetch.head := λ url,
       if decide (url = nightly_archive)
       then {| Fetch.status_code := 200;
               Fetch.headers := {[ "content-length"%string := "3"%string ]};
               Fetch.text := ""; Fetch.iter_content := [] |}
       else not_found;
     Fetch.get := λ url,
       if decide (url = Nightly.link)
       then {| Fetch.status_code := 200; Fetch.headers := ∅;
               Fetch.text := nightly_page; Fetch.iter_content := [_b nightly_page] |}
       else if decide (url = nightly_archive)
       then {| Fetch.status_code := 200;
               Fetch.headers := {[ "content-length"%string := "3"%string ]};
               Fetch.text := "abc"; Fetch.iter_content := [_b "abc"] |}
       else not_found |}.

(** The same server with something at the companion URL of the archive. *)
Definition nightly_server_with_companion : Fetch.Network :=
  {| Fetch.head := Fetch.head nightly_server;
     Fetch.get := λ url,
       if decide (url = (nightly_archive +:+ ".sha256")%string)
       then {| Fetch.status_code := 200; Fetch.headers := ∅;
               Fetch.text := "0000"; Fetch.iter_content := [_b "0000"] |}
       else Fetch.get nightly_server url |}.

Definition empty_host : Nightly.Host :=
  {| Nightly.fs := ∅; Nightly.log := []; Nightly.calls := [] |}.

(** A signer that accepts everything, for the closed examples. *)
Definition accept_all (pem_file pem_password : option string) (filename : string)
    (data : list byte) (fs : gmap string (list byte)) : option unit := None.

(** More of the closed examples: headers, a digest, a world with an older
    file at the target. *)
Definition length_3 : gmap string string := {[ "content-length"%string := "3"%string ]}.

Definition abc_digest : string := Sha256.hexdigest (_b "abc").

Definition cached_world : Fetch.World :=
  {| Fetch.fs := {[ "firefox.dmg"%string := _b "old" ]}; Fetch.log := [] |}.


(** A page without anchors, and a file with a companion that ends in a
    line feed. *)
Definition no_links (page : string) : list string := [].

Definition signed_files : gmap string (list byte) :=
  {[ "firefox.dmg"%string := _b "abc";
     "firefox.dmg.sha256"%string := _b abc_digest ++ ["010"%byte] ]}.

(** ** Test vectors *)

Example sha256_abc :
  Sha256.hexdigest (_b "abc")
  = "ba7816bf8f01cfea414140de5dae2223b00361a396177a9cb410ff61f20015ad"%string.
Proof. vm_compute. reflexivity. Qed.

Example sha256_empty :
  Sha256.hexdigest []
  = "e3b0c44298fc1c149afbf4c8996fb92427ae41e4649b934ca495991b7852b855"%string.
Proof. vm_compute. reflexivity. Qed.

Example sha256_two_blocks :
  Sha256.hexdigest (replicate 70 "a"%byte)
  = "6bd5e5034855a11241f0dee8fc72850ffd9955b28347a86428b5fa19119f6ad0"%string.
Proof. vm_compute. reflexivity. Qed.

(** The decoder on a letter with an accent, an overlong form, a surrogate,
    a sequence cut short, a sign of four bytes and a byte that starts
    nothing. *)
Example utf8_cases :
  Verify.valid_utf8 [xc3; xa9] = true
  ∧ Verify.valid_utf8 [xc0; x80] = false
  ∧ Verify.valid_utf8 [xed; xa0; x80] = false
  ∧ Verify.valid_utf8 [xe2; x82] = false
  ∧ Verify.valid_utf8 [xf0; x9f; x98; x80] = true
  ∧ Verify.valid_utf8 [xff] = false.
Proof. vm_compute. repeat split. Qed.

(** * Properties *)

(** [H] says that a byte occurs in a list of bytes that is known in full
    and does not hold it. *)
Ltac absent_in H :=
  vm_compute in H;
  repeat (apply elem_of_cons in H as [H|H]; [discriminate|]);
  by apply elem_of_nil in H.

(** A path that is known in full holds no line feed and ends in no white
    space. *)
Ltac solve_path_ok :=
  split;
  [ let H := fresh in intros H; absent_in H
  | let c := fresh in let H := fresh in
    intros c H; vm_compute in H; injection H as <-; reflexivity ].

(** ** strip, split and join *)

Section Bytes.

Implicit Types (s r : list byte) (c : byte) (l : list (list byte)).

Lemma lstrip_head s c : head (Py.lstrip s) = Some c → Py.isspace c = false.
Proof.
  induction s as [|a s IH]; simpl; [done|].
  destruct (Py.isspace a) eqn:Ha; [done|].
  simpl. by intros [= <-].
Qed.

Lemma lstrip_suffix s : Py.lstrip s `suffix_of` s.
Proof.
  induction s as [|a s IH]; simpl; [done|].
  destruct (Py.isspace a); [by apply suffix_cons_r | done].
Qed.

Lemma lstrip_id s :
  (∀ c, head s = Some c → Py.isspace c = false) → Py.lstrip s = s.
Proof.
  destruct s as [|a s]; simpl; [done|].
  intros H. by rewrite (H a).
Qed.

Lemma rstrip_last s c : last (Py.rstrip s) = Some c → Py.isspace c = false.
Proof.
  unfold Py.rstrip. rewrite last_reverse. apply lstrip_head.
Qed.

Lemma rstrip_prefix s : Py.rstrip s `prefix_of` s.
Proof.
  unfold Py.rstrip.
  destruct (lstrip_suffix (reverse s)) as [k Hk].
  exists (reverse k). rewrite <- reverse_app, <- Hk. by rewrite reverse_involutive.
Qed.

Lemma rstrip_id s :
  (∀ c, last s = Some c → Py.isspace c = false) → Py.rstrip s = s.
Proof.
  intros H. unfold Py.rstrip. rewrite lstrip_id.
  - apply reverse_involutive.
  - intros c. rewrite head_reverse. apply H.
Qed.

Lemma rstrip_head s c :
  head (Py.rstrip s) = Some c → head s = Some c.
Proof.
  destruct (rstrip_prefix s) as [k Hk]. intros H.
  rewrite Hk. destruct (Py.rstrip s); simplify_eq/=. done.
Qed.

(** What [strip] returns has no white space at either end. *)
Lemma strip_clean s :
  (∀ c, head (Py.strip s) = Some c → Py.isspace c = false)
  ∧ (∀ c, last (Py.strip s) = Some c → Py.isspace c = false).
Proof.
  split; intros c H.
  - apply rstrip_head in H. by apply lstrip_head in H.
  - by apply rstrip_last in H.
Qed.

Lemma strip_id s :
  (∀ c, head s = Some c → Py.isspace c = false) →
  (∀ c, last s = Some c → Py.isspace c = false) →
  Py.strip s = s.
Proof.
  intros Hh Hl. unfold Py.strip. rewrite lstrip_id by done. by apply rstrip_id.
Qed.

Lemma split_no_sep sep s : sep ∉ s → Py.split sep s = [s].
Proof.
  induction s as [|a s IH]; simpl; [done|].
  intros H. apply not_elem_of_cons in H as [Ha Hs].
  destruct (decide (a = sep)); [congruence|]. by rewrite IH.
Qed.

Lemma split_app sep s r :
  sep ∉ s → Py.split sep (s ++ sep :: r) = s :: Py.split sep r.
Proof.
  induction s as [|a s IH]; simpl; intros H.
  - by rewrite decide_True.
  - apply not_elem_of_cons in H as [Ha Hs].
    destruct (decide (a = sep)); [congruence|]. by rewrite IH.
Qed.

(** Splitting what [join] made gives the pieces back, when no piece holds
    the separator and there is a piece at all. *)
Lemma split_join sep l :
  l ≠ [] → Forall (λ s, sep ∉ s) l → Py.split sep (Py.join [sep] l) = l.
Proof.
  induction l as [|x l IH]; [done|].
  intros _ H. apply Forall_cons in H as [Hx Hl].
  destruct l as [|y l].
  - simpl. by apply split_no_sep.
  - change (Py.join [sep] (x :: y :: l)) with (x ++ sep :: Py.join [sep] (y :: l)).
    rewrite split_app by done. by rewrite IH.
Qed.

Lemma tag_of_record k p : tag_of (record k p) = tag k.
Proof.
  unfold tag_of, record.
  rewrite split_app; [done|].
  destruct k; intros H; absent_in H.
Qed.

Lemma record_inj k1 p1 k2 p2 :
  record k1 p1 = record k2 p2 → k1 = k2 ∧ p1 = p2.
Proof.
  destruct k1, k2; cbv [record tag _b list_byte_of_string]; simpl;
    intros H; by simplify_eq.
Qed.

Lemma _b_inj p q : _b p = _b q → p = q.
Proof.
  intros H. rewrite <- (string_of_list_byte_of_string p),
    <- (string_of_list_byte_of_string q). unfold _b in H. by rewrite H.
Qed.

End Bytes.

(** ** The loops of DiffInfo in closed form *)

Section Loops.

Import DiffInfo.

Implicit Types (self : DiffInfo.t) (cur prev : Py.dict FileInfo).

Lemma load_lines_info lines self :
  _info (fold_left load_line lines self)
  = _info self ++ filter nonempty (Py.strip <$> lines).
Proof.
  revert self. induction lines as [|x lines IH]; intros self; simpl.
  - by rewrite app_nil_r.
  - rewrite IH. unfold load_line. rewrite filter_cons. unfold nonempty at 2.
    destruct (decide (Py.strip x = [])) as [E|E].
    + by rewrite decide_False by (by intros ?).
    + rewrite decide_True by done. simpl. by rewrite <- app_assoc.
Qed.

Lemma load_lines_counters lines self :
  let d := fold_left load_line lines self in
  new d = new self ∧ changed d = changed self ∧ deleted d = deleted self.
Proof.
  revert self. induction lines as [|x lines IH]; intros self; simpl; [done|].
  destruct (IH (load_line self x)) as (-> & -> & ->).
  unfold load_line. by destruct (decide _).
Qed.

(** [load] holds the stripped, non-empty lines of the data. *)
Lemma load_info self data :
  _info (load self data)
  = filter nonempty (Py.strip <$> Py.split "010"%byte data).
Proof. unfold load. by rewrite load_lines_info. Qed.

(** [load] leaves the counters as they were. *)
Lemma load_counters self data :
  new (load self data) = new self
  ∧ changed (load self data) = changed self
  ∧ deleted (load self data) = deleted self.
Proof. unfold load. apply (load_lines_counters _ (set_info self [])). Qed.

Lemma occurrences_cons k k' ks :
  occurrences k (k' :: ks) = bump k' k + occurrences k ks.
Proof.
  unfold occurrences, bump. rewrite filter_cons.
  destruct (decide (k' = k)); simpl; lia.
Qed.

Lemma add_info k self name : _info (add k self name) = _info self ++ [record k name].
Proof. by destruct k. Qed.

Lemma add_counters k self name :
  new (add k self name) = new self + bump k NEW
  ∧ changed (add k self name) = changed self + bump k CHANGED
  ∧ deleted (add k self name) = deleted self + bump k DELETED.
Proof. destruct k; vm_compute bump; cbn; repeat split; lia. Qed.

Lemma change_of_not_deleted prev item : change_of prev item ≠ Some DELETED.
Proof.
  unfold change_of. destruct (Py.get prev item.1); [|done].
  by destruct (decide _).
Qed.

Lemma update_current_step prev self files item :
  update_current prev (self, files) item
  = match change_of prev item with
    | Some k => (add k self (_b item.1), files ++ [item.2])
    | None => (self, files)
    end.
Proof.
  destruct item as [name info]. unfold update_current, change_of. cbn [fst snd].
  destruct (Py.get prev name) as [previous|]; [|done].
  by destruct (decide _).
Qed.

Lemma update_current_loop prev items self files :
  let r := fold_left (update_current prev) items (self, files) in
  _info r.1 = _info self ++ omap (current_record prev) items
  ∧ r.2 = files ++ (filter (selected prev) items).*2
  ∧ new r.1 = new self + occurrences NEW (kinds prev items)
  ∧ changed r.1 = changed self + occurrences CHANGED (kinds prev items)
  ∧ deleted r.1 = deleted self.
Proof.
  revert self files. induction items as [|item items IH]; intros self files.
  - simpl. rewrite !app_nil_r. unfold occurrences. simpl.
    repeat split; try done; lia.
  - cbn [fold_left]. cbv zeta in IH. cbv zeta.
    rewrite update_current_step.
    unfold kinds. cbn [omap list_omap]. fold (omap (current_record prev) items).
    fold (omap (change_of prev) items). fold (kinds prev items).
    rewrite filter_cons. unfold current_record at 1.
    pose proof (change_of_not_deleted prev item) as Hnd.
    destruct (change_of prev item) as [k|] eqn:Hk.
    + destruct (IH (add k self (_b item.1)) (files ++ [item.2]))
        as (-> & -> & -> & -> & ->).
      rewrite decide_True by (unfold selected; rewrite Hk; by eexists).
      rewrite !occurrences_cons, add_info. cbn [mbind option_bind fmap list_fmap].
      destruct (add_counters k self (_b item.1)) as (-> & -> & ->).
      rewrite <- !app_assoc. cbn [app].
      destruct k; vm_compute bump; repeat split; try lia; try done.
    + destruct (IH self files) as (-> & -> & -> & -> & ->).
      rewrite decide_False by (unfold selected; rewrite Hk; by intros [? ?]).
      done.
Qed.

Lemma update_previous_step cur self item :
  update_previous cur self item
  = match previous_record cur item with
    | Some _ => add DELETED self (_b item.1)
    | None => self
    end.
Proof.
  destruct item as [name info]. unfold update_previous, previous_record.
  cbn [fst]. by destruct (Py.contains cur name).
Qed.

Lemma previous_record_Some cur item r :
  previous_record cur item = Some r → r = record DELETED (_b item.1).
Proof.
  unfold previous_record. destruct (Py.contains cur item.1); [done|].
  by intros [= <-].
Qed.

Lemma update_previous_loop cur items self :
  let r := fold_left (update_previous cur) items self in
  _info r = _info self ++ omap (previous_record cur) items
  ∧ new r = new self
  ∧ changed r = changed self
  ∧ deleted r = deleted self + Z.of_nat (length (omap (previous_record cur) items)).
Proof.
  revert self. induction items as [|item items IH]; intros self.
  - simpl. rewrite app_nil_r. repeat split; try done; lia.
  - cbn [fold_left]. cbv zeta in IH. cbv zeta.
    rewrite update_previous_step.
    cbn [omap list_omap]. fold (omap (previous_record cur) items).
    destruct (previous_record cur item) as [r|] eqn:Hr.
    + apply previous_record_Some in Hr as ->.
      destruct (IH (add DELETED self (_b item.1))) as (-> & -> & -> & ->).
      rewrite add_info.
      destruct (add_counters DELETED self (_b item.1)) as (-> & -> & ->).
      vm_compute bump. rewrite <- !app_assoc. cbn [app length].
      repeat split; try done; lia.
    + apply IH.
Qed.

(** [update] in closed form. *)
Lemma update_closed self cur prev :
  let r := update self cur prev in
  _info r.1 = _info self ++ omap (current_record prev) cur
                         ++ omap (previous_record cur) prev
  ∧ r.2 = (filter (selected prev) cur).*2
  ∧ new r.1 = new self + occurrences NEW (kinds prev cur)
  ∧ changed r.1 = changed self + occurrences CHANGED (kinds prev cur)
  ∧ deleted r.1 = deleted self
                  + Z.of_nat (length (omap (previous_record cur) prev)).
Proof.
  unfold update, Py.items.
  pose proof (update_current_loop prev cur self []) as H1. cbv zeta in H1.
  destruct (fold_left (update_current prev) cur (self, [])) as [self1 files].
  cbn [fst snd] in H1. destruct H1 as (E1 & E2 & E3 & E4 & E5).
  pose proof (update_previous_loop cur prev self1) as H2. cbv zeta in H2.
  destruct H2 as (F1 & F2 & F3 & F4).
  cbn [fst snd]. rewrite F1, F2, F3, F4, E1, E2, E3, E4, E5.
  rewrite <- app_assoc. done.
Qed.

End Loops.

(** ** Dictionaries *)

Section Dict.

Context {V : Type}.
Implicit Types (d : Py.dict V) (k : string) (v : V).

Lemma get_Some_elem d k v : Py.get d k = Some v → (k, v) ∈ d.
Proof.
  induction d as [|[k' v'] d IH]; simpl; [done|].
  destruct (decide (k' = k)) as [->|].
  - intros [= ->]. apply elem_of_cons. by left.
  - intros H. apply elem_of_cons. right. by apply IH.
Qed.

Lemma get_None d k : Py.get d k = None ↔ k ∉ Py.keys d.
Proof.
  unfold Py.keys. induction d as [|[k' v'] d IH]; simpl.
  - split; [intros _; apply not_elem_of_nil | done].
  - rewrite not_elem_of_cons. destruct (decide (k' = k)) as [->|].
    + split; [done | by intros [? _]].
    + rewrite IH. split; [by intros ? | by intros [_ ?]].
Qed.

Lemma get_is_Some d k : is_Some (Py.get d k) ↔ k ∈ Py.keys d.
Proof.
  rewrite <- not_eq_None_Some, get_None.
  split; [apply dec_stable | by intros ? ?].
Qed.

Lemma contains_true d k : Py.contains d k = true ↔ k ∈ Py.keys d.
Proof. unfold Py.contains. rewrite bool_decide_eq_true. apply get_is_Some. Qed.

Lemma contains_false d k : Py.contains d k = false ↔ k ∉ Py.keys d.
Proof.
  rewrite <- contains_true. by destruct (Py.contains d k).
Qed.

(** In a dictionary an entry is found under its key. *)
Lemma elem_get d k v : Py.dict_wf d → (k, v) ∈ d → Py.get d k = Some v.
Proof.
  unfold Py.dict_wf, Py.keys.
  induction d as [|[k' v'] d IH]; simpl; intros Hwf Hin.
  - by apply elem_of_nil in Hin.
  - apply NoDup_cons in Hwf as [Hk' Hwf].
    apply elem_of_cons in Hin as [[= -> ->]|Hin].
    + by rewrite decide_True.
    + destruct (decide (k' = k)) as [->|]; [|by apply IH].
      exfalso. apply Hk'. apply list_elem_of_fmap. by exists (k, v).
Qed.

End Dict.

(** ** What update records *)

Section Update.

Import DiffInfo.

Implicit Types (self : DiffInfo.t) (cur prev : Py.dict FileInfo).

Lemma current_changes_entry prev cur :
  entry <$> current_changes prev cur = omap (current_record prev) cur.
Proof.
  unfold current_changes, current_record.
  induction cur as [|item cur IH]; [done|].
  cbn [omap list_omap]. destruct (change_of prev item); cbn; [|done].
  f_equal. apply IH.
Qed.

Lemma previous_changes_entry cur prev :
  entry <$> previous_changes cur prev = omap (previous_record cur) prev.
Proof.
  unfold previous_changes, previous_record.
  induction prev as [|item prev IH]; [done|].
  cbn [omap list_omap]. destruct (Py.contains cur item.1); cbn; [done|].
  f_equal. apply IH.
Qed.

Lemma update_info self cur prev :
  _info (update self cur prev).1
  = _info self ++ (entry <$> current_changes prev cur)
               ++ (entry <$> previous_changes cur prev).
Proof.
  rewrite current_changes_entry, previous_changes_entry.
  apply (update_closed self cur prev).
Qed.

Lemma elem_current_changes prev cur k p :
  (k, p) ∈ current_changes prev cur
  ↔ ∃ i, (p, i) ∈ cur ∧ change_of prev (p, i) = Some k.
Proof.
  unfold current_changes. rewrite list_elem_of_omap. split.
  - intros ([p' i] & Hin & H). cbn in H.
    destruct (change_of prev (p', i)) eqn:E; simplify_eq/=. eauto.
  - intros (i & Hin & H). exists (p, i). split; [done|]. by rewrite H.
Qed.

Lemma elem_previous_changes cur prev k p :
  (k, p) ∈ previous_changes cur prev
  ↔ k = DELETED ∧ p ∈ Py.keys prev ∧ p ∉ Py.keys cur.
Proof.
  unfold previous_changes. rewrite list_elem_of_omap. split.
  - intros ([p' i] & Hin & H). cbn in H.
    destruct (Py.contains cur p') eqn:E; simplify_eq/=.
    apply contains_false in E. repeat split; [|done].
    apply list_elem_of_fmap. by exists (p, i).
  - intros (-> & Hin & Hout). apply list_elem_of_fmap in Hin as ([p' i] & -> & Hin).
    exists (p', i). split; [done|]. cbn [fst] in *.
    apply contains_false in Hout. by rewrite Hout.
Qed.

Lemma change_of_NEW prev p i :
  change_of prev (p, i) = Some NEW ↔ p ∉ Py.keys prev.
Proof.
  rewrite <- get_None. unfold change_of. cbn.
  destruct (Py.get prev p); [|done].
  destruct (decide _); split; done.
Qed.

Lemma change_of_CHANGED prev p i :
  change_of prev (p, i) = Some CHANGED
  ↔ ∃ j, Py.get prev p = Some j ∧ chksum (member i) ≠ chksum (member j).
Proof.
  unfold change_of. cbn. destruct (Py.get prev p) as [j|].
  - destruct (decide _) as [H|H]; split; try done.
    + intros _. exists j. split; [done|]. by intros ?.
    + intros (j' & [= <-] & H'). exfalso. apply H. by intros ?.
  - split; [done | by intros (? & ? & _)].
Qed.

Lemma current_changes_sublist prev cur :
  (current_changes prev cur).*2 `sublist_of` Py.keys cur.
Proof.
  unfold current_changes, Py.keys.
  induction cur as [|item cur IH]; [done|].
  cbn [omap list_omap fmap list_fmap]. destruct (change_of prev item); cbn.
  - by apply sublist_skip.
  - by apply sublist_cons.
Qed.

Lemma previous_changes_sublist cur prev :
  (previous_changes cur prev).*2 `sublist_of` Py.keys prev.
Proof.
  unfold previous_changes, Py.keys.
  induction prev as [|item prev IH]; [done|].
  cbn [omap list_omap fmap list_fmap]. destruct (Py.contains cur item.1); cbn.
  - by apply sublist_cons.
  - by apply sublist_skip.
Qed.

Lemma entry_elem e (l : list (Kind * string)) : entry e ∈ entry <$> l → e ∈ l.
Proof.
  intros H. apply list_elem_of_fmap in H as (e' & Heq & Hin).
  unfold entry in Heq. apply record_inj in Heq as [H1 H2].
  apply _b_inj in H2. destruct e, e'; simplify_eq/=. done.
Qed.

End Update.

(** ** The counters and the held records *)

Section Counters.

Import DiffInfo.

Implicit Types (self : DiffInfo.t) (cur prev : Py.dict FileInfo).

Lemma tag_inj k k' : tag k = tag k' → k = k'.
Proof. by destruct k, k'. Qed.

Lemma count_kind_app k (l1 l2 : list (list byte)) :
  count_kind k (l1 ++ l2) = count_kind k l1 + count_kind k l2.
Proof. unfold count_kind. rewrite filter_app, length_app. lia. Qed.

Lemma count_kind_record k k' p : count_kind k [record k' p] = bump k' k.
Proof.
  unfold count_kind, bump. rewrite filter_cons, filter_nil, tag_of_record.
  destruct (decide (k' = k)) as [->|Hne].
  - by rewrite decide_True.
  - rewrite decide_False; [done|]. intros H. by apply tag_inj in H.
Qed.

Lemma counters_agree_init : counters_agree init.
Proof. by repeat split. Qed.

(** [add_new], [add_changed] and [add_deleted] keep the counters in step
    with the records. *)
Lemma counters_agree_add k self name :
  counters_agree self → counters_agree (add k self name).
Proof.
  unfold counters_agree. intros (Hn & Hc & Hd).
  rewrite add_info, !count_kind_app, !count_kind_record.
  destruct (add_counters k self name) as (-> & -> & ->). lia.
Qed.

Lemma counters_agree_current prev items self files :
  counters_agree self →
  counters_agree (fold_left (update_current prev) items (self, files)).1.
Proof.
  revert self files. induction items as [|item items IH]; intros self files H; [done|].
  cbn [fold_left]. rewrite update_current_step.
  destruct (change_of prev item); apply IH; [by apply counters_agree_add | done].
Qed.

Lemma counters_agree_previous cur items self :
  counters_agree self →
  counters_agree (fold_left (update_previous cur) items self).
Proof.
  revert self. induction items as [|item items IH]; intros self H; [done|].
  cbn [fold_left]. rewrite update_previous_step.
  destruct (previous_record cur item); apply IH; [by apply counters_agree_add | done].
Qed.

(** So does [update]. *)
Lemma counters_agree_update self cur prev :
  counters_agree self → counters_agree (update self cur prev).1.
Proof.
  intros H. unfold update.
  pose proof (counters_agree_current prev (Py.items cur) self [] H) as H1.
  destruct (fold_left (update_current prev) (Py.items cur) (self, [])) as [self1 files].
  cbn [fst] in *. by apply counters_agree_previous.
Qed.

End Counters.

(** ** The claims about DiffInfo *)

Section DiffInfoClaims.

Import DiffInfo.

Implicit Types (self : DiffInfo.t) (cur prev : Py.dict FileInfo).

(** C1.  The specification wants each counter to be the number of held
    records of its kind after every operation, [load] included.  [load]
    replaces the records and assigns no counter: loaded into a fresh object,
    the one line [NEW:a] gives one held record of kind NEW under a counter
    [new] of 0; and an object whose [update] counted one new file still says
    [new = 1] after loading a log with a single DELETED record. *)
Theorem load_leaves_counters_stale :
  (let d := load init (_b "NEW:a") in
   _info d = [_b "NEW:a"] ∧ count_kind NEW (_info d) = 1 ∧ new d = 0
   ∧ ¬ counters_agree d)
  ∧ (∀ info,
       let d0 := (update init [("a"%string, info)] []).1 in
       let d := load d0 (_b "DELETED:x") in
       counters_agree d0
       ∧ _info d = [_b "DELETED:x"]
       ∧ new d = 1 ∧ count_kind NEW (_info d) = 0
       ∧ deleted d = 0 ∧ count_kind DELETED (_info d) = 1).
Proof.
  split.
  - cbv zeta. repeat split; try (vm_compute; reflexivity).
    intros (H & _). vm_compute in H. discriminate.
  - intros info. cbv zeta. split; [apply counters_agree_update, counters_agree_init|].
    repeat split; vm_compute; reflexivity.
Qed.

(** C5.  [update] only appends: the records held before the call are a
    prefix of the records held after it, and no counter goes down. *)
Theorem update_only_appends self cur prev :
  _info self `prefix_of` _info (update self cur prev).1
  ∧ new self ≤ new (update self cur prev).1
  ∧ changed self ≤ changed (update self cur prev).1
  ∧ deleted self ≤ deleted (update self cur prev).1.
Proof.
  destruct (update_closed self cur prev) as (-> & _ & -> & -> & ->).
  unfold occurrences. split; [by eexists|]. lia.
Qed.

(** C2.  For snapshots [cur] and [prev] (the keys of [cur] pairwise
    distinct, as in any dictionary), [update] appends the records of a list
    [first] and then those of a list [second], where [first] holds NEW for
    exactly the paths in [cur] and not in [prev] and CHANGED for exactly the
    paths in both with different checksums, [second] holds DELETED for
    exactly the paths in [prev] and not in [cur], a path in both with equal
    checksums has no record of any kind, and the paths of [first] and of
    [second] come in the order of [cur] and of [prev].  For
    [cur = {a: c1, b: c2}] and [prev = {a: c1, c: c3}] the records are
    [NEW:b], [DELETED:c], the counters 1, 0 and 1. *)
Theorem update_records self cur prev :
  Py.dict_wf cur →
  (∃ first second : list (Kind * string),
    _info (update self cur prev).1
      = _info self ++ (entry <$> first) ++ (entry <$> second)
    ∧ (∀ k p, (k, p) ∈ first ↔
         (k = NEW ∧ p ∈ Py.keys cur ∧ p ∉ Py.keys prev)
         ∨ (k = CHANGED ∧ ∃ i j, Py.get cur p = Some i ∧ Py.get prev p = Some j
                                ∧ chksum (member i) ≠ chksum (member j)))
    ∧ (∀ k p, (k, p) ∈ second ↔ k = DELETED ∧ p ∈ Py.keys prev ∧ p ∉ Py.keys cur)
    ∧ (∀ p i j, Py.get cur p = Some i → Py.get prev p = Some j →
         chksum (member i) = chksum (member j) →
         ∀ k, record k (_b p) ∉ (entry <$> first) ++ (entry <$> second))
    ∧ first.*2 `sublist_of` Py.keys cur
    ∧ second.*2 `sublist_of` Py.keys prev)
  ∧ (∀ a a' b c : FileInfo,
       chksum (member a) = chksum (member a') →
       update init [("a"%string, a); ("b"%string, b)]
                   [("a"%string, a'); ("c"%string, c)]
       = ({| _info := [_b "NEW:b"; _b "DELETED:c"];
             changed := 0; new := 1; deleted := 1 |}, [b])).
Proof.
  intros Hwf. split.
  - exists (current_changes prev cur), (previous_changes cur prev).
    assert (Hfirst : ∀ k p, (k, p) ∈ current_changes prev cur ↔
         (k = NEW ∧ p ∈ Py.keys cur ∧ p ∉ Py.keys prev)
         ∨ (k = CHANGED ∧ ∃ i j, Py.get cur p = Some i ∧ Py.get prev p = Some j
                                ∧ chksum (member i) ≠ chksum (member j))).
    { intros k p. rewrite elem_current_changes. split.
      - intros (i & Hin & Hk). destruct k.
        + left. apply change_of_NEW in Hk. repeat split; [|done].
          apply list_elem_of_fmap. by exists (p, i).
        + right. apply change_of_CHANGED in Hk as (j & Hj & Hne).
          split; [done|]. exists i, j. repeat split; [|done..]. by apply elem_get.
        + by apply change_of_not_deleted in Hk.
      - intros [(-> & Hin & Hout) | (-> & i & j & Hi & Hj & Hne)].
        + apply list_elem_of_fmap in Hin as ([p' i] & -> & Hin).
          exists i. split; [done|]. by apply change_of_NEW.
        + exists i. split; [by apply get_Some_elem|].
          apply change_of_CHANGED. eauto. }
    split; [apply update_info|]. split; [done|].
    split; [apply elem_previous_changes|].
    split; [|split; [apply current_changes_sublist | apply previous_changes_sublist]].
    intros p i j Hi Hj Heq k Hin.
    apply elem_of_app in Hin as [Hin|Hin];
      apply (entry_elem (k, p)) in Hin.
    + apply Hfirst in Hin as [(_ & _ & Hout) | (_ & i' & j' & Hi' & Hj' & Hne)].
      * apply get_None in Hout. congruence.
      * congruence.
    + apply elem_previous_changes in Hin as (_ & _ & Hout).
      apply get_None in Hout. congruence.
  - intros a a' b c Heq. unfold update, Py.items. cbn [fold_left].
    rewrite !update_current_step.
    unfold change_of, Py.contains. cbn.
    repeat (case_decide; simplify_eq/=; try done).
Qed.

(** C4.  The list that [update] returns is the metadata of a sublist [sel]
    of the entries of [cur], in their order: exactly the entries whose path
    is not in [prev] or has another checksum there.  The records appended
    before the DELETED ones are the records of [sel], one for one and in the
    same order.  No returned entry is unchanged, and none belongs to a
    deleted path, whose records make up the rest. *)
Theorem update_returns self cur prev :
  ∃ (sel : list (string * FileInfo)) (removed : list (list byte)),
    (update self cur prev).2 = sel.*2
    ∧ sel `sublist_of` Py.items cur
    ∧ (∀ item, item ∈ sel ↔
         item ∈ Py.items cur
         ∧ (item.1 ∉ Py.keys prev
            ∨ ∃ j, Py.get prev item.1 = Some j
                   ∧ chksum (member item.2) ≠ chksum (member j)))
    ∧ _info (update self cur prev).1
      = _info self
        ++ ((λ item, record (if Py.contains prev item.1 then CHANGED else NEW)
                            (_b item.1)) <$> sel)
        ++ removed
    ∧ Forall (λ r, ∃ p, r = record DELETED (_b p)
                        ∧ p ∈ Py.keys prev ∧ p ∉ Py.keys cur) removed
    ∧ Forall (λ item, item.1 ∈ Py.keys cur
                      ∧ ¬ ∃ j, Py.get prev item.1 = Some j
                               ∧ chksum (member item.2) = chksum (member j)) sel.
Proof.
  exists (filter (selected prev) cur), (omap (previous_record cur) prev).
  destruct (update_closed self cur prev) as (Hinfo & Hfiles & _).
  assert (Hsel : ∀ item, selected prev item ↔
            item.1 ∉ Py.keys prev
            ∨ ∃ j, Py.get prev item.1 = Some j
                   ∧ chksum (member item.2) ≠ chksum (member j)).
  { intros [p i]. unfold selected. cbn [fst snd].
    rewrite <- change_of_NEW, <- change_of_CHANGED.
    pose proof (change_of_not_deleted prev (p, i)) as Hnd.
    split.
    - intros [[] Hk]; [by left | by right | done].
    - intros [H|H]; rewrite H; by eexists. }
  split; [done|]. split; [apply sublist_filter|].
  split; [intros item; rewrite list_elem_of_filter, Hsel; tauto|].
  split; [|split].
  - rewrite Hinfo. f_equal. f_equal.
    clear. induction cur as [|[p i] cur IH]; [done|].
    cbn [omap list_omap]. rewrite filter_cons.
    unfold current_record at 1.
    destruct (change_of prev (p, i)) as [k|] eqn:Hk.
    + rewrite decide_True by (unfold selected; rewrite Hk; by eexists).
      cbn [mbind option_bind fmap list_fmap fst].
      rewrite IH. f_equal. f_equal. destruct k.
      * apply change_of_NEW, contains_false in Hk. by rewrite Hk.
      * apply change_of_CHANGED in Hk as (j & Hj & _).
        assert (Py.contains prev p = true) as ->; [|done].
        apply contains_true, get_is_Some. by eexists.
      * by apply change_of_not_deleted in Hk.
    + rewrite decide_False by (unfold selected; rewrite Hk; by intros [? ?]).
      apply IH.
  - apply Forall_forall. intros r Hr.
    apply list_elem_of_omap in Hr as ([p i] & Hin & Hr).
    unfold previous_record in Hr. cbn [fst] in Hr.
    destruct (Py.contains cur p) eqn:E; [done|]. injection Hr as <-.
    exists p. split; [done|]. split; [|by apply contains_false].
    apply list_elem_of_fmap. by exists (p, i).
  - apply Forall_forall. intros [p i] Hin.
    apply list_elem_of_filter in Hin as [Hs Hin]. cbn [fst snd]. split.
    + apply list_elem_of_fmap. by exists (p, i).
    + intros (j & Hj & Heq). apply Hsel in Hs as [Hout|(j' & Hj' & Hne)]; cbn in *.
      * apply get_None in Hout. congruence.
      * congruence.
Qed.

(** C6.  Two pairs of snapshots that hold the same checksum for every path
    (whatever the order of their entries and whatever else the metadata
    holds) make [update] append the same set of records; and a path with
    equal checksums in both snapshots has no record among them. *)
Theorem update_order_independent self cur1 prev1 cur2 prev2 :
  Py.dict_wf cur1 → Py.dict_wf cur2 →
  (∀ p, checksum_at cur1 p = checksum_at cur2 p) →
  (∀ p, checksum_at prev1 p = checksum_at prev2 p) →
  (∀ r, r ∈ produced self cur1 prev1 ↔ r ∈ produced self cur2 prev2)
  ∧ (∀ p c, checksum_at cur1 p = Some c → checksum_at prev1 p = Some c →
       ∀ k, (record k (_b p) ∉ produced self cur1 prev1)
            ∧ (record k (_b p) ∉ produced self cur2 prev2)).
Proof.
  intros Hwf1 Hwf2 Hcur Hprev.
  assert (Hv : ∀ cur prev, Py.dict_wf cur → ∀ r,
            r ∈ produced self cur prev
            ↔ ∃ k p, r = record k (_b p)
                     ∧ verdict (checksum_at cur p) (checksum_at prev p) = Some k).
  { intros cur prev Hwf r. unfold produced. rewrite update_info, drop_app_length.
    rewrite elem_of_app, !list_elem_of_fmap. split.
    - intros [([k p] & -> & Hin) | ([k p] & -> & Hin)]; exists k, p; (split; [done|]).
      + apply elem_current_changes in Hin as (i & Hin & Hk).
        unfold checksum_at. rewrite (elem_get _ _ _ Hwf Hin). cbn.
        unfold change_of in Hk. cbn in Hk. by destruct (Py.get prev p).
      + apply elem_previous_changes in Hin as (-> & Hin & Hout).
        apply get_None in Hout. apply get_is_Some in Hin as [j Hj].
        unfold checksum_at. by rewrite Hout, Hj.
    - intros (k & p & -> & Hk). unfold checksum_at in Hk.
      destruct (Py.get cur p) as [i|] eqn:Hi; cbn in Hk.
      + left. exists (k, p). split; [done|]. apply elem_current_changes.
        exists i. split; [by apply get_Some_elem|].
        unfold change_of. cbn. by destruct (Py.get prev p).
      + right. exists (k, p). split; [done|]. apply elem_previous_changes.
        destruct (Py.get prev p) as [j|] eqn:Hj; cbn in Hk; [|done].
        injection Hk as <-. split; [done|].
        split; [apply get_is_Some; by eexists | by apply get_None]. }
  split.
  - intros r. rewrite !Hv by done. by setoid_rewrite Hcur; setoid_rewrite Hprev.
  - intros p c Hc Hp k.
    split; rewrite Hv by done; intros (k' & p' & Heq & Hk);
      apply record_inj in Heq as [<- Heq]; apply _b_inj in Heq as <-;
      rewrite <- ?Hcur, <- ?Hprev, Hc, Hp in Hk; cbn in Hk;
      by rewrite decide_False in Hk by (by intros ?).
Qed.

(** A record whose path has no line feed and no white space at its end
    comes back from [strip] as it is and holds no line feed. *)
Lemma record_survives k (p : list byte) :
  path_ok p →
  Py.strip (record k p) = record k p ∧ ("010"%byte ∉ record k p) ∧ record k p ≠ [].
Proof.
  intros [Hnl Hlast]. split; [|split].
  - apply strip_id.
    + destruct k; cbn; intros c [= <-]; done.
    + intros c. unfold record. rewrite last_app. cbn [last].
      destruct p as [|b p]; [by intros [= <-]|].
      rewrite last_cons_cons. destruct (last (b :: p)) as [y|] eqn:E.
      * intros [= <-]. by apply Hlast.
      * by apply last_None in E.
  - unfold record. rewrite elem_of_app, elem_of_cons.
    intros [H|[H|H]]; [|done..].
    destruct k; absent_in H.
  - by destruct k.
Qed.

(** Records that survive [strip] and hold no line feed come back from
    [load] after [dump], whatever object they are loaded into. *)
Lemma load_dump_clean self (l : list (list byte)) :
  Forall (λ r, Py.strip r = r ∧ ("010"%byte ∉ r) ∧ r ≠ []) l →
  _info (load self (Py.join ["010"%byte] l)) = l.
Proof.
  intros H. rewrite load_info.
  destruct (decide (l = [])) as [->|Hne]; [done|].
  rewrite split_join; [|done|by eapply Forall_impl; [exact H|]; intros ? (_ & ? & _)].
  clear Hne. induction H as [|r l (Hs & _ & Hr) _ IH]; [done|].
  cbn [fmap list_fmap]. rewrite filter_cons, Hs.
  rewrite decide_True by done. f_equal. apply IH.
Qed.

(** C3, as amended.  For a DiffInfo made by a diff of snapshots none of
    whose paths holds a line feed or ends in white space, [load] of [dump]
    holds the same records in the same order, whatever it is loaded into,
    and counting the loaded records by tag gives the counters that the diff
    built. *)
Theorem dump_load_roundtrip self cur prev :
  Forall (λ p, path_ok (_b p)) (Py.keys cur) →
  Forall (λ p, path_ok (_b p)) (Py.keys prev) →
  let d := (update init cur prev).1 in
  let d' := load self (dump d) in
  _info d' = _info d
  ∧ count_kind NEW (_info d') = new d
  ∧ count_kind CHANGED (_info d') = changed d
  ∧ count_kind DELETED (_info d') = deleted d.
Proof.
  intros Hcur Hprev d d'.
  assert (Hinfo : _info d' = _info d).
  { subst d'. unfold dump. apply load_dump_clean.
    subst d. rewrite update_info. cbn [_info init app].
    rewrite Forall_forall in Hcur, Hprev.
    apply Forall_app. split; apply Forall_fmap, Forall_forall; intros [k p] Hin;
      apply record_survives; cbn [snd].
    - apply Hcur. eapply elem_of_sublist; [|apply (current_changes_sublist prev cur)].
      apply list_elem_of_fmap. by exists (k, p).
    - apply Hprev. eapply elem_of_sublist; [|apply (previous_changes_sublist cur prev)].
      apply list_elem_of_fmap. by exists (k, p). }
  rewrite Hinfo. split; [done|].
  destruct (counters_agree_update init cur prev counters_agree_init) as (Hn & Hc & Hd).
  subst d. by rewrite Hn, Hc, Hd.
Qed.

(** C10.  [load] holds the lines of the data, split at line feeds, each
    stripped, the empty ones dropped; so every held record is non-empty and
    has no white space at either end, and a DiffInfo that holds a record
    whose path ends in white space does not come back from [dump] and
    [load] with the records it had. *)
Theorem load_strips self data :
  _info (load self data)
    = filter nonempty (Py.strip <$> Py.split "010"%byte data)
  ∧ Forall (λ r, r ≠ []
               ∧ (∀ c, head r = Some c → Py.isspace c = false)
               ∧ (∀ c, last r = Some c → Py.isspace c = false))
      (_info (load self data))
  ∧ (∀ d k p c,
       record k p ∈ _info d → last p = Some c → Py.isspace c = true →
       _info (load self (dump d)) ≠ _info d).
Proof.
  assert (Hclean : ∀ self data,
    Forall (λ r, r ≠ []
               ∧ (∀ c, head r = Some c → Py.isspace c = false)
               ∧ (∀ c, last r = Some c → Py.isspace c = false))
      (_info (load self data))).
  { clear. intros self data. rewrite load_info. apply Forall_forall. intros r Hr.
    apply list_elem_of_filter in Hr as [Hne Hr].
    apply list_elem_of_fmap in Hr as (line & -> & _).
    split; [done|]. apply strip_clean. }
  split; [apply load_info|]. split; [apply Hclean|].
  intros d k p c Hin Hlast Hsp Heq.
  specialize (Hclean self (dump d)). rewrite Heq, Forall_forall in Hclean.
  destruct (Hclean _ Hin) as (_ & _ & Hl).
  specialize (Hl c). unfold record in Hl. rewrite last_app in Hl.
  destruct p as [|b p]; [done|].
  rewrite last_cons_cons, Hlast in Hl. specialize (Hl eq_refl). congruence.
Qed.

End DiffInfoClaims.

(** ** download_file step by step *)

Section FetchRuns.

Import Fetch.

Variable checksum : list byte → string.
Variable py_int : string → option Z.
Variable net : Network.

Lemma world_eta w : {| fs := fs w; log := log w |} = w.
Proof. by destruct w. Qed.

(** The download loop appends every chunk to the open file. *)
Lemma write_chunks_run target chunks w data :
  fs w !! target = Some data →
  write_chunks target chunks w
  = (Return (), {| fs := <[target := data ++ concat chunks]> (fs w); log := log w |}).
Proof.
  revert w data. induction chunks as [|chunk chunks IH]; intros w data Hw.
  - cbn. rewrite app_nil_r, insert_id by done. by rewrite world_eta.
  - cbn [write_chunks concat]. unfold mbind, M_bind.
    destruct (decide (chunk ≠ [])) as [Hc|Hc].
    + unfold write at 1. rewrite Hw. cbn [default].
      erewrite IH by (cbn; apply lookup_insert_eq).
      cbn. by rewrite insert_insert_eq, app_assoc.
    + apply dec_stable in Hc as ->. unfold mret, M_ret. cbn [app].
      by apply IH.
Qed.

(** Without a declared content length the download step raises
    [TypeError] before the file is opened. *)
Lemma download_and_check_no_length url target check_file check w :
  headers (get net url) !! "content-length"%string = None →
  download_and_check checksum py_int net url target check_file check w
  = (Raise TypeError, w).
Proof. intros H. unfold download_and_check. by rewrite H. Qed.

(** With a declared content length that [int] accepts, the download step
    writes the chunks and then compares, when asked to. *)
Lemma download_and_check_run url target (check_file : bool) check w s n :
  headers (get net url) !! "content-length"%string = Some s →
  py_int s = Some n →
  let received := concat (iter_content (get net url)) in
  let fs' := <[target := received]> (fs w) in
  download_and_check checksum py_int net url target check_file check w
  = if check_file && bool_decide (check ≠ Some (checksum received))
    then (Raise (ArchiveError target), {| fs := fs'; log := log w ++ [BadChecksum] |})
    else (Return target, {| fs := fs'; log := log w |}).
Proof.
  intros Hs Hn received fs'. unfold download_and_check.
  rewrite Hs. cbn [int_]. rewrite Hn.
  unfold mbind, M_bind, mret, M_ret, open_wb.
  erewrite write_chunks_run by (cbn; apply lookup_insert_eq).
  cbn [fs log app]. rewrite insert_insert_eq. fold received. fold fs'.
  destruct check_file; cbn [andb]; [|done].
  unfold signer_checksum. cbn [fs]. subst fs'. rewrite lookup_insert_eq.
  by destruct (bool_decide _).
Qed.

(** [download_file] up to the download step, for an artifact that is
    there. *)
Lemma download_file_run url target (check_file : bool) w :
  status_code (head net url) = 200 →
  let tgt := target_of url target in
  let check := if check_file
               then Some (text (get net (url +:+ ".sha256")))
               else None in
  let w0 := {| fs := fs w; log := log w ++ [CheckIfExists url; Downloading url] |} in
  download_file checksum py_int net url target check_file w
  = match fs w !! tgt with
    | Some data =>
        if negb check_file then (Return tgt, w0)
        else if decide (Some (checksum data) = check)
             then (Return tgt, {| fs := fs w; log := log w0 ++ [AlreadyDownloaded] |})
             else download_and_check checksum py_int net url tgt check_file check w0
    | None => download_and_check checksum py_int net url tgt check_file check w0
    end.
Proof.
  intros H200 tgt check w0.
  unfold download_file, check_exists, mbind, M_bind, mret, M_ret, msg.
  rewrite H200, bool_decide_eq_true_2 by done. cbn [negb fs log].
  rewrite <- app_assoc. cbn [app]. fold (target_of url target). fold tgt. fold check.
  unfold path_exists. cbn [fs].
  destruct (fs w !! tgt) as [data|] eqn:Hd.
  - rewrite bool_decide_eq_true_2 by (by eexists).
    destruct check_file; cbn [negb]; [|done].
    unfold signer_checksum. cbn [fs]. rewrite Hd.
    by destruct (decide _).
  - rewrite bool_decide_eq_false_2 by (by intros [? ?]). done.
Qed.

(** An artifact that is not there: [ArchiveNotFound], nothing written. *)
Lemma download_file_absent url target check_file w :
  status_code (head net url) ≠ 200 →
  download_file checksum py_int net url target check_file w
  = (Raise (ArchiveNotFound url),
     {| fs := fs w; log := log w ++ [CheckIfExists url; CannotFind url] |}).
Proof.
  intros H. unfold download_file, check_exists, mbind, M_bind, mret, M_ret, msg.
  cbn [fs log]. rewrite bool_decide_eq_false_2 by done. cbn.
  by rewrite <- app_assoc.
Qed.

(** Without [check_file] the companion resource is never asked for: two
    networks that agree on the artifact give the same run. *)
Lemma unchecked_ignores_companion (net' : Network) url target w :
  head net url = head net' url → get net url = get net' url →
  download_file checksum py_int net url target false w
  = download_file checksum py_int net' url target false w.
Proof.
  intros Hh Hg. unfold download_file, download_and_check, check_exists.
  by rewrite Hh, Hg.
Qed.

End FetchRuns.

(** ** The claims about download_file *)

Section FetchClaims.

Import Fetch.

(** C8.  A call with [check_file] that downloads (the artifact is there, no
    local file with the expected checksum is in the way, the content length
    is declared and an integer) and receives bytes whose checksum is not the
    expected text raises [ArchiveError] with the target path; the target
    then holds the bytes received, and no other file has changed. *)
Theorem bad_checksum_keeps_file (checksum : list byte → string)
    (py_int : string → option Z) (net : Network) url target w s n :
  let tgt := target_of url target in
  let expected := text (get net (url +:+ ".sha256")) in
  let received := concat (iter_content (get net url)) in
  status_code (head net url) = 200 →
  (∀ data, fs w !! tgt = Some data → checksum data ≠ expected) →
  headers (get net url) !! "content-length"%string = Some s →
  py_int s = Some n →
  checksum received ≠ expected →
  ∃ w', download_file checksum py_int net url target true w
          = (Raise (ArchiveError tgt), w')
        ∧ fs w' !! tgt = Some received
        ∧ (∀ p, p ≠ tgt → fs w' !! p = fs w !! p).
Proof.
  intros tgt expected received H200 Hlocal Hs Hn Hbad.
  rewrite download_file_run by done. fold tgt. fold expected. cbn [negb].
  assert (Hrun : ∀ w0, fs w0 = fs w →
    ∃ w', download_and_check checksum py_int net url tgt true (Some expected) w0
            = (Raise (ArchiveError tgt), w')
          ∧ fs w' !! tgt = Some received
          ∧ (∀ p, p ≠ tgt → fs w' !! p = fs w !! p)).
  { intros w0 Hw0. rewrite (download_and_check_run _ _ _ _ _ _ _ _ s n) by done.
    fold received. cbn [andb].
    rewrite bool_decide_eq_true_2 by congruence.
    eexists. split; [done|]. cbn [fs]. rewrite Hw0. split.
    - apply lookup_insert_eq.
    - intros p Hp. by apply lookup_insert_ne. }
  destruct (fs w !! tgt) as [data|] eqn:Hd.
  - rewrite decide_False by (intros [= H]; by apply (Hlocal data)).
    by apply Hrun.
  - by apply Hrun.
Qed.

(** C7.  The artifact is served as three bytes with a declared length, and
    the companion resource is missing: its URL answers 404.  Without
    [check_file] the call returns the path and the file holds the bytes.
    With [check_file] and the text "Not Found" in the 404 answer the call
    raises [ArchiveError].  With [check_file] and a 404 answer whose text is
    the digest of the bytes, the call returns the path: the status of the
    companion answer is never looked at. *)
Theorem missing_companion_runs :
  let length := {[ "content-length"%string := "3"%string ]} : gmap string string in
  let bytes := [_b "abc"] in
  let digest := Sha256.hexdigest (_b "abc") in
  let run404 text check_file :=
    download_file_sha256 (serve length bytes 404 text) artifact None check_file
      empty_world in
  (run404 "Not Found"%string false).1 = Return "firefox.dmg"%string
  ∧ fs (run404 "Not Found"%string false).2 !! "firefox.dmg"%string = Some (_b "abc")
  ∧ (run404 "Not Found"%string true).1 = Raise (ArchiveError "firefox.dmg")
  ∧ (run404 digest true).1 = Return "firefox.dmg"%string
  ∧ fs (run404 digest true).2 !! "firefox.dmg"%string = Some (_b "abc").
Proof. vm_compute. repeat split. Qed.

(** The same for every server: with [check_file], whatever the status of
    the answer at the companion URL, a text there that equals the checksum
    of the received bytes makes the call return the path. *)
Lemma matching_text_is_accepted (checksum : list byte → string)
    (py_int : string → option Z) (net : Network) url target w s n :
  let tgt := target_of url target in
  let received := concat (iter_content (get net url)) in
  status_code (head net url) = 200 →
  fs w !! tgt = None →
  headers (get net url) !! "content-length"%string = Some s →
  py_int s = Some n →
  text (get net (url +:+ ".sha256")) = checksum received →
  ∃ w', download_file checksum py_int net url target true w = (Return tgt, w')
        ∧ fs w' !! tgt = Some received.
Proof.
  intros tgt received H200 Hnone Hs Hn Htext.
  rewrite download_file_run by done. fold tgt. rewrite Hnone.
  rewrite (download_and_check_run _ _ _ _ _ _ _ _ s n) by done.
  fold received. rewrite Htext. cbn [andb].
  rewrite bool_decide_eq_false_2 by (intros H; by apply H).
  eexists. split; [done|]. cbn [fs]. apply lookup_insert_eq.
Qed.

(** C9.  The artifact is served without a declared content length.  The
    call raises [TypeError], with [check_file] or without, and writes no
    file: [int] is applied to the absent header before the target is
    opened. *)
Theorem no_content_length_raises :
  let digest := Sha256.hexdigest (_b "abc") in
  let run check_file :=
    download_file_sha256 (serve ∅ [_b "abc"] 200 digest) artifact None check_file
      empty_world in
  (run false).1 = Raise TypeError
  ∧ (run true).1 = Raise TypeError
  ∧ fs (run false).2 = ∅
  ∧ fs (run true).2 = ∅.
Proof. vm_compute. repeat split. Qed.

(** The same for every call that reaches the download step. *)
Lemma no_content_length_general (checksum : list byte → string)
    (py_int : string → option Z) (net : Network) url target (check_file : bool) w :
  let tgt := target_of url target in
  status_code (head net url) = 200 →
  (∀ data, fs w !! tgt = Some data →
     check_file = true ∧ checksum data ≠ text (get net (url +:+ ".sha256"))) →
  headers (get net url) !! "content-length"%string = None →
  ∃ w', download_file checksum py_int net url target check_file w = (Raise TypeError, w')
        ∧ fs w' = fs w.
Proof.
  intros tgt H200 Hlocal Hnone.
  rewrite download_file_run by done. fold tgt.
  destruct (fs w !! tgt) as [data|] eqn:Hd.
  - destruct (Hlocal data eq_refl) as [-> Hne]. cbn [negb].
    rewrite decide_False by (intros [= H]; by apply Hne).
    rewrite download_and_check_no_length by done. by eexists.
  - rewrite download_and_check_no_length by done. by eexists.
Qed.

End FetchClaims.

(** ** Closed instances *)

Lemma path_ok_a : path_ok (_b "a").
Proof. solve_path_ok. Defined.

Lemma path_ok_b : path_ok (_b "b").
Proof. solve_path_ok. Defined.

Lemma path_ok_c : path_ok (_b "c").
Proof. solve_path_ok. Defined.

Lemma current_ab_wf : Py.dict_wf current_ab.
Proof. unfold Py.dict_wf. apply (bool_decide_unpack _). vm_compute. exact I. Defined.

Lemma current_ba_wf : Py.dict_wf current_ba.
Proof. unfold Py.dict_wf. apply (bool_decide_unpack _). vm_compute. exact I. Defined.

(** The scenario of the specification: [{a, b}] after [{a, c}]. *)
Lemma update_records_witness :
  Py.dict_wf current_ab
  ∧ ∃ first second : list (Kind * string),
      DiffInfo._info (DiffInfo.update DiffInfo.init current_ab previous_ac).1
      = (entry <$> first) ++ (entry <$> second)
      ∧ first.*2 `sublist_of` Py.keys current_ab
      ∧ second.*2 `sublist_of` Py.keys previous_ac.
Proof.
  split; [exact current_ab_wf|].
  destruct (update_records DiffInfo.init current_ab previous_ac current_ab_wf)
    as [(first & second & H & _ & _ & _ & H1 & H2) _].
  exists first, second. auto.
Defined.

(** C3, as the specification states it, fails: the diff of a snapshot with
    one new file named ["a "] holds the record [NEW:a ], and [load] of its
    [dump] holds [NEW:a]; the diff of a snapshot with one new file whose
    name is [a], a line feed, [b] holds one record, and [load] of its [dump]
    holds two, [NEW:a] and [b]. *)
Lemma roundtrip_drops_trailing_space :
  (DiffInfo._info (DiffInfo.update DiffInfo.init current_spaced []).1 = [_b "NEW:a "]
   ∧ DiffInfo._info
       (DiffInfo.load DiffInfo.init
          (DiffInfo.dump (DiffInfo.update DiffInfo.init current_spaced []).1))
     = [_b "NEW:a"]
   ∧ DiffInfo._info
       (DiffInfo.load DiffInfo.init
          (DiffInfo.dump (DiffInfo.update DiffInfo.init current_spaced []).1))
     ≠ DiffInfo._info (DiffInfo.update DiffInfo.init current_spaced []).1)
  ∧ (length (DiffInfo._info (DiffInfo.update DiffInfo.init current_two_lines []).1)
     = 1%nat
     ∧ DiffInfo._info
         (DiffInfo.load DiffInfo.init
            (DiffInfo.dump (DiffInfo.update DiffInfo.init current_two_lines []).1))
       = [_b "NEW:a"; _b "b"]).
Proof.
  split; [split; [|split]|split]; try (vm_compute; reflexivity).
  vm_compute. discriminate.
Qed.

Lemma dump_load_roundtrip_witness :
  Forall (λ p, path_ok (_b p)) (Py.keys current_ab)
  ∧ Forall (λ p, path_ok (_b p)) (Py.keys previous_ac)
  ∧ DiffInfo._info
      (DiffInfo.load DiffInfo.init
         (DiffInfo.dump (DiffInfo.update DiffInfo.init current_ab previous_ac).1))
    = DiffInfo._info (DiffInfo.update DiffInfo.init current_ab previous_ac).1.
Proof.
  assert (H1 : Forall (λ p, path_ok (_b p)) (Py.keys current_ab)).
  { constructor; [exact path_ok_a|]. constructor; [exact path_ok_b|]. constructor. }
  assert (H2 : Forall (λ p, path_ok (_b p)) (Py.keys previous_ac)).
  { constructor; [exact path_ok_a|]. constructor; [exact path_ok_c|]. constructor. }
  split; [exact H1|]. split; [exact H2|].
  exact (proj1 (dump_load_roundtrip DiffInfo.init current_ab previous_ac H1 H2)).
Defined.

Lemma checksum_at_ab_ba p : checksum_at current_ab p = checksum_at current_ba p.
Proof.
  unfold checksum_at, current_ab, current_ba. cbn.
  repeat (case_decide; simplify_eq/=; try done).
Defined.

Lemma checksum_at_ac_ca p : checksum_at previous_ac p = checksum_at previous_ca p.
Proof.
  unfold checksum_at, previous_ac, previous_ca. cbn.
  repeat (case_decide; simplify_eq/=; try done).
Defined.

Lemma update_order_independent_witness :
  Py.dict_wf current_ab ∧ Py.dict_wf current_ba
  ∧ (∀ p, checksum_at current_ab p = checksum_at current_ba p)
  ∧ (∀ p, checksum_at previous_ac p = checksum_at previous_ca p)
  ∧ (∀ r, r ∈ produced DiffInfo.init current_ab previous_ac
          ↔ r ∈ produced DiffInfo.init current_ba previous_ca).
Proof.
  split; [exact current_ab_wf|]. split; [exact current_ba_wf|].
  split; [exact checksum_at_ab_ba|]. split; [exact checksum_at_ac_ca|].
  exact (proj1 (update_order_independent DiffInfo.init _ _ _ _
                  current_ab_wf current_ba_wf checksum_at_ab_ba checksum_at_ac_ca)).
Defined.

Lemma load_strips_witness :
  record NEW (_b "a ") ∈ DiffInfo._info (DiffInfo.add_new DiffInfo.init (_b "a "))
  ∧ last (_b "a ") = Some " "%byte
  ∧ Py.isspace " "%byte = true
  ∧ DiffInfo._info
      (DiffInfo.load DiffInfo.init
         (DiffInfo.dump (DiffInfo.add_new DiffInfo.init (_b "a "))))
    ≠ DiffInfo._info (DiffInfo.add_new DiffInfo.init (_b "a ")).
Proof.
  assert (H1 : record NEW (_b "a ")
               ∈ DiffInfo._info (DiffInfo.add_new DiffInfo.init (_b "a "))).
  { vm_compute. apply list_elem_of_here. }
  split; [exact H1|]. split; [reflexivity|]. split; [reflexivity|].
  exact (proj2 (proj2 (load_strips DiffInfo.init []))
           (DiffInfo.add_new DiffInfo.init (_b "a ")) NEW (_b "a ") " "%byte
           H1 eq_refl eq_refl).
Defined.

Lemma bad_checksum_keeps_file_witness :
  let net := serve {[ "content-length"%string := "3"%string ]} [_b "abc"]
                   200 "deadbeef" in
  Fetch.status_code (Fetch.head net artifact) = 200
  ∧ Sha256.hexdigest (_b "abc") ≠ "deadbeef"%string
  ∧ ∃ w', Fetch.download_file Sha256.hexdigest decimal_int net artifact None true
            empty_world
          = (Fetch.Raise (Fetch.ArchiveError "firefox.dmg"), w')
          ∧ Fetch.fs w' !! "firefox.dmg"%string = Some (_b "abc").
Proof.
  intros net.
  assert (H1 : Fetch.status_code (Fetch.head net artifact) = 200) by reflexivity.
  assert (H2 : Sha256.hexdigest (_b "abc") ≠ "deadbeef"%string)
    by (vm_compute; discriminate).
  split; [exact H1|]. split; [exact H2|].
  destruct (bad_checksum_keeps_file Sha256.hexdigest decimal_int net artifact None
              empty_world "3" 3 H1) as (w' & Hrun & Hfile & _).
  - intros data H. vm_compute in H. discriminate.
  - vm_compute. reflexivity.
  - reflexivity.
  - exact H2.
  - exists w'. split; [exact Hrun | exact Hfile].
Defined.

(** * Further properties of DiffInfo *)

Section DiffInfoMore.

Import DiffInfo.

Implicit Types (self : DiffInfo.t) (cur prev : Py.dict FileInfo).

Lemma split_is_cons sep (s : list byte) : ∃ w ws, Py.split sep s = w :: ws.
Proof.
  destruct s as [|a s]; simpl; [by eexists _, _|].
  destruct (decide (a = sep)); [by eexists _, _|].
  destruct (Py.split sep s); by eexists _, _.
Qed.

(** Splitting cuts at every separator: the pieces of a text with a separator
    inside are the pieces before it and the pieces after it. *)
Lemma split_at_sep sep (a b : list byte) :
  Py.split sep (a ++ sep :: b) = Py.split sep a ++ Py.split sep b.
Proof.
  induction a as [|c a IH]; simpl.
  - by rewrite decide_True.
  - destruct (decide (c = sep)); [by rewrite IH|].
    rewrite IH. by destruct (split_is_cons sep a) as (w & ws & ->).
Qed.

Lemma split_pieces sep (s : list byte) : Forall (λ w, sep ∉ w) (Py.split sep s).
Proof.
  induction s as [|c s IH]; simpl.
  - constructor; [apply not_elem_of_nil | constructor].
  - destruct (decide (c = sep)).
    + constructor; [apply not_elem_of_nil | done].
    + destruct (Py.split sep s) as [|w ws].
      * constructor; [|constructor].
        apply not_elem_of_cons. split; [done | apply not_elem_of_nil].
      * apply Forall_cons in IH as [Hw Hws].
        constructor; [|done]. apply not_elem_of_cons. by split.
Qed.

Lemma strip_elem (s : list byte) c : c ∈ Py.strip s → c ∈ s.
Proof.
  unfold Py.strip. intros H.
  destruct (rstrip_prefix (Py.lstrip s)) as [k Hk].
  destruct (lstrip_suffix s) as [k' Hk'].
  rewrite Hk', Hk. apply elem_of_app. right. apply elem_of_app. by left.
Qed.

Lemma strip_strip (s : list byte) : Py.strip (Py.strip s) = Py.strip s.
Proof. apply strip_id; apply strip_clean. Qed.

(** X1.  The methods that add records keep the counters in step with them:
    if each counter is the number of held records of its kind, it still is
    after [add_new], [add_changed], [add_deleted] and [update]; and it is so
    in a fresh object. *)
Theorem adding_keeps_counters self name cur prev :
  counters_agree self →
  counters_agree init
  ∧ counters_agree (add_new self name)
  ∧ counters_agree (add_changed self name)
  ∧ counters_agree (add_deleted self name)
  ∧ counters_agree (update self cur prev).1.
Proof.
  intros H. split; [apply counters_agree_init|].
  split; [apply (counters_agree_add NEW _ _ H)|].
  split; [apply (counters_agree_add CHANGED _ _ H)|].
  split; [apply (counters_agree_add DELETED _ _ H)|].
  by apply counters_agree_update.
Qed.

(** X2.  What [load] holds always comes back from [dump] and [load] as it
    is, whatever the data were and whatever object it is loaded into: the
    first [load] leaves only records that the format can carry. *)
Theorem reload_is_exact self self' data :
  _info (load self' (dump (load self data))) = _info (load self data).
Proof.
  unfold dump. apply load_dump_clean.
  rewrite load_info. apply Forall_forall. intros r Hr.
  apply list_elem_of_filter in Hr as [Hne Hr].
  apply list_elem_of_fmap in Hr as (line & -> & Hline).
  split; [apply strip_strip|]. split; [|done].
  intros Hin. apply strip_elem in Hin.
  pose proof (split_pieces "010"%byte data) as Hp.
  rewrite Forall_forall in Hp. by apply (Hp line).
Qed.

(** X3.  [load] reads line by line: the records of two texts joined by a
    line feed are the records of the first followed by those of the second.
    So a line feed at the end, or an empty line anywhere, adds nothing. *)
Theorem load_line_by_line self (a b : list byte) :
  _info (load self (a ++ "010"%byte :: b)) = _info (load self a) ++ _info (load self b)
  ∧ _info (load self (a ++ ["010"%byte])) = _info (load self a)
  ∧ _info (load self (a ++ "010"%byte :: "010"%byte :: b))
    = _info (load self (a ++ "010"%byte :: b)).
Proof.
  assert (H : ∀ a b, _info (load self (a ++ "010"%byte :: b))
                     = _info (load self a) ++ _info (load self b)).
  { intros a' b'. rewrite !load_info, split_at_sep, fmap_app. apply filter_app. }
  assert (Hnil : _info (load self []) = []) by reflexivity.
  split; [apply H|]. split.
  - by rewrite H, Hnil, app_nil_r.
  - rewrite (H a ("010"%byte :: b)), (H a b). f_equal.
    all: pose proof (H [] b) as H0; by rewrite Hnil in H0.
Qed.

Lemma occurrences_selected prev (items : list (string * FileInfo)) :
  occurrences NEW (kinds prev items) + occurrences CHANGED (kinds prev items)
  = Z.of_nat (length (filter (selected prev) items))
  ∧ length (omap (current_record prev) items)
    = length (filter (selected prev) items).
Proof.
  induction items as [|item items [IH1 IH2]]; [done|].
  unfold kinds. cbn [omap list_omap]. fold (kinds prev items).
  fold (omap (current_record prev) items).
  rewrite filter_cons. unfold current_record at 1.
  pose proof (change_of_not_deleted prev item) as Hnd.
  destruct (change_of prev item) as [k|] eqn:Hk.
  - rewrite decide_True by (unfold selected; rewrite Hk; by eexists).
    rewrite !occurrences_cons. cbn [mbind option_bind length].
    split; [|by rewrite IH2].
    destruct k; vm_compute bump; try done; lia.
  - rewrite decide_False by (unfold selected; rewrite Hk; by intros [? ?]).
    done.
Qed.

(** X4.  The list that [update] returns has as many entries as the counters
    [new] and [changed] grew by together, and the number of held records
    ([__len__]) grows by what the three counters grew by. *)
Theorem update_counts self cur prev :
  let r := update self cur prev in
  Z.of_nat (length r.2) = (new r.1 - new self) + (changed r.1 - changed self)
  ∧ len r.1 = len self + (new r.1 - new self) + (changed r.1 - changed self)
                       + (deleted r.1 - deleted self).
Proof.
  cbv zeta. destruct (update_closed self cur prev) as (Hi & Hf & Hn & Hc & Hd).
  destruct (occurrences_selected prev cur) as [H1 H2].
  unfold len. rewrite Hi, Hf, Hn, Hc, Hd, !length_app, length_fmap, H2. lia.
Qed.

Lemma split_record k (p : list byte) :
  Py.split ":"%byte (record k p) = tag k :: Py.split ":"%byte p.
Proof.
  unfold record. rewrite split_at_sep, split_no_sep; [done|].
  destruct k; intros H; absent_in H.
Qed.

(** X5.  Iterating a DiffInfo made by [update] from snapshots whose paths
    hold no colon yields, record by record, the pair of the tag and the
    path.  (With a colon in a path the item has more than two pieces; the
    first is still the tag: [split_record].) *)
Theorem iter_yields_pairs cur prev :
  Forall (λ p, ":"%byte ∉ _b p) (Py.keys cur) →
  Forall (λ p, ":"%byte ∉ _b p) (Py.keys prev) →
  let d := (update init cur prev).1 in
  Forall2 (λ pieces r, ∃ k p, r = record k (_b p) ∧ pieces = [tag k; _b p])
    (iter d) (_info d).
Proof.
  intros Hcur Hprev d. unfold iter. subst d.
  rewrite update_info. cbn [_info init app].
  rewrite Forall2_fmap_l. apply Forall_Forall2_diag.
  rewrite Forall_forall in Hcur, Hprev.
  apply Forall_app. split; apply Forall_fmap, Forall_forall; intros [k p] Hin;
    exists k, p; (split; [done|]); unfold entry; cbn [fst snd];
    rewrite split_record, split_no_sep; try done.
  - apply Hcur. eapply elem_of_sublist; [|apply (current_changes_sublist prev cur)].
    apply list_elem_of_fmap. by exists (k, p).
  - apply Hprev. eapply elem_of_sublist; [|apply (previous_changes_sublist cur prev)].
    apply list_elem_of_fmap. by exists (k, p).
Qed.

Lemma update_current_idle prev (items : list (string * FileInfo)) self files :
  Forall (λ item, change_of prev item = None) items →
  fold_left (update_current prev) items (self, files) = (self, files).
Proof.
  induction 1 as [|item items Hitem _ IH]; [done|].
  cbn [fold_left]. by rewrite update_current_step, Hitem.
Qed.

Lemma update_previous_idle cur (items : list (string * FileInfo)) self :
  Forall (λ item, Py.contains cur item.1 = true) items →
  fold_left (update_previous cur) items self = self.
Proof.
  induction 1 as [|item items Hitem _ IH]; [done|].
  cbn [fold_left]. rewrite update_previous_step.
  unfold previous_record. by rewrite Hitem.
Qed.

(** X6.  A snapshot compared with itself gives no change: [update] leaves
    the object as it was and returns the empty list. *)
Theorem update_same_snapshot self cur :
  Py.dict_wf cur → update self cur cur = (self, []).
Proof.
  intros Hwf. unfold update, Py.items.
  rewrite update_current_idle.
  - rewrite update_previous_idle; [done|].
    apply Forall_forall. intros [p i] Hin. cbn [fst].
    apply contains_true. apply list_elem_of_fmap. by exists (p, i).
  - apply Forall_forall. intros [p i] Hin.
    unfold change_of. cbn [fst snd]. rewrite (elem_get _ _ _ Hwf Hin).
    by rewrite decide_False by (by intros H).
Qed.

(** X7.  Against an empty previous snapshot every file is new, and against
    an empty current snapshot every file is deleted: [update] appends one
    record per path, in the order of the snapshot, and counts them; it
    returns every metadata entry in the first case and none in the
    second. *)
Theorem update_with_empty self (d : Py.dict FileInfo) :
  (let r := update self d [] in
   r.2 = d.*2
   ∧ _info r.1 = _info self ++ ((λ p, record NEW (_b p)) <$> Py.keys d)
   ∧ new r.1 = new self + Z.of_nat (length d)
   ∧ changed r.1 = changed self ∧ deleted r.1 = deleted self)
  ∧ (let r := update self [] d in
     r.2 = []
     ∧ _info r.1 = _info self ++ ((λ p, record DELETED (_b p)) <$> Py.keys d)
     ∧ deleted r.1 = deleted self + Z.of_nat (length d)
     ∧ new r.1 = new self ∧ changed r.1 = changed self).
Proof.
  split; cbv zeta.
  - destruct (update_closed self d []) as (Hi & Hf & Hn & Hc & Hd).
    assert (H1 : omap (current_record []) d = (λ p, record NEW (_b p)) <$> Py.keys d).
    { unfold Py.keys. clear. induction d as [|[p i] d IH]; [done|].
      cbn [omap list_omap fmap list_fmap fst]. fold (omap (current_record []) d).
      by rewrite IH. }
    assert (H2 : filter (selected []) d = d).
    { clear. induction d as [|[p i] d IH]; [done|].
      rewrite filter_cons, decide_True by (by eexists). by rewrite IH. }
    assert (H3 : occurrences NEW (kinds [] d) = Z.of_nat (length d)
                 ∧ occurrences CHANGED (kinds [] d) = 0).
    { clear. induction d as [|[p i] d [IH1 IH2]]; [done|].
      unfold kinds. cbn [omap list_omap]. fold (kinds [] d).
      change (change_of [] (p, i)) with (Some NEW). cbv iota.
      rewrite !occurrences_cons, IH1, IH2. vm_compute bump. cbn [length]. lia. }
    destruct H3 as [H3 H4].
    rewrite Hi, Hf, Hn, Hc, Hd, H1, H2, H3, H4. cbn [omap list_omap length].
    rewrite app_nil_r. repeat split; lia.
  - destruct (update_closed self [] d) as (Hi & Hf & Hn & Hc & Hd).
    assert (H1 : omap (previous_record []) d
                 = (λ p, record DELETED (_b p)) <$> Py.keys d).
    { unfold Py.keys. clear. induction d as [|[p i] d IH]; [done|].
      cbn [omap list_omap fmap list_fmap fst]. fold (omap (previous_record []) d).
      by rewrite IH. }
    rewrite Hi, Hf, Hn, Hc, Hd, H1, length_fmap. unfold Py.keys.
    rewrite length_fmap. unfold occurrences, kinds. cbn [omap list_omap app].
    rewrite !filter_nil. cbn [length fmap list_fmap]. repeat split; try done; try lia.
Qed.

(** X8.  Exchanging the two snapshots exchanges NEW and DELETED and keeps
    CHANGED: a path is recorded as new by [update(cur, prev)] exactly when
    it is recorded as deleted by [update(prev, cur)], and as changed by one
    exactly when by the other. *)
Theorem update_swapped self self' cur prev :
  Py.dict_wf cur → Py.dict_wf prev →
  ∀ p,
    (record NEW (_b p) ∈ produced self cur prev
     ↔ record DELETED (_b p) ∈ produced self' prev cur)
    ∧ (record CHANGED (_b p) ∈ produced self cur prev
       ↔ record CHANGED (_b p) ∈ produced self' prev cur).
Proof.
  intros Hcur Hprev p.
  assert (Hin : ∀ s c q k, record k (_b p) ∈ produced s c q
                ↔ (k, p) ∈ current_changes q c ∨ (k, p) ∈ previous_changes c q).
  { intros s c q k. unfold produced. rewrite update_info, drop_app_length, elem_of_app.
    split.
    - intros [H|H]; [left|right]; by apply (entry_elem (k, p)).
    - intros [H|H]; [left|right]; apply list_elem_of_fmap; by exists (k, p). }
  rewrite !Hin, !elem_current_changes, !elem_previous_changes. split.
  - split.
    + intros [(i & Hi & Hk)|(? & _)]; [|done]. right.
      apply change_of_NEW in Hk. split; [done|]. split; [|done].
      apply list_elem_of_fmap. by exists (p, i).
    + intros [(i & _ & Hk)|(_ & Hi & Ho)]; [by apply change_of_not_deleted in Hk|].
      left. apply list_elem_of_fmap in Hi as ([p' i] & -> & Hi).
      exists i. split; [done|]. by apply change_of_NEW.
  - assert (Hsym : ∀ c q, Py.dict_wf c → Py.dict_wf q →
      (∃ i, (p, i) ∈ c ∧ change_of q (p, i) = Some CHANGED) →
      (∃ i, (p, i) ∈ q ∧ change_of c (p, i) = Some CHANGED)).
    { intros c q Hc Hq (i & Hi & Hk).
      apply change_of_CHANGED in Hk as (j & Hj & Hne).
      exists j. split; [by apply get_Some_elem|].
      apply change_of_CHANGED. exists i. split; [by apply elem_get|]. congruence. }
    split; (intros [H|(? & _)]; [|done]); left; by eapply Hsym.
Qed.

End DiffInfoMore.

(** * Further properties of download_file *)

Section FetchMore.

Import Fetch.

(** The four ways in which the download step ends. *)
Lemma download_and_check_cases (checksum : list byte → string)
    (py_int : string → option Z) (net : Network) url tgt (check_file : bool) check w :
  let received := concat (iter_content (get net url)) in
  let run := download_and_check checksum py_int net url tgt check_file check w in
  run = (Raise TypeError, w)
  ∨ run = (Raise ValueError, w)
  ∨ (check_file = true ∧ check ≠ Some (checksum received)
     ∧ run = (Raise (ArchiveError tgt),
              {| fs := <[tgt := received]> (fs w); log := log w ++ [BadChecksum] |}))
  ∨ ((check_file = false ∨ check = Some (checksum received))
     ∧ run = (Return tgt, {| fs := <[tgt := received]> (fs w); log := log w |})).
Proof.
  intros received run. subst run.
  destruct (headers (get net url) !! "content-length"%string) as [s|] eqn:Hs.
  - destruct (py_int s) as [n|] eqn:Hn.
    + rewrite (download_and_check_run _ _ _ _ _ _ _ _ s n) by done. fold received.
      destruct check_file; cbn [andb].
      * destruct (bool_decide (check ≠ Some (checksum received))) eqn:Hb.
        -- apply bool_decide_eq_true in Hb. right. right. left. done.
        -- apply bool_decide_eq_false in Hb. apply dec_stable in Hb.
           right. right. right. split; [by right | done].
      * right. right. right. split; [by left | done].
    + right. left. unfold download_and_check. rewrite Hs. cbn [int_]. by rewrite Hn.
  - left. by apply download_and_check_no_length.
Qed.

(** X9.  An artifact whose [HEAD] answer is anything but 200 (a 404, or a
    redirect, which [requests.head] does not follow) makes the call raise
    [ArchiveNotFound] with the URL, with [check_file] or without; no file
    is written and two messages are logged. *)
Theorem absent_artifact_raises (checksum : list byte → string)
    (py_int : string → option Z) (net : Network) url target check_file w :
  status_code (head net url) ≠ 200 →
  download_file checksum py_int net url target check_file w
  = (Raise (ArchiveNotFound url),
     {| fs := fs w; log := log w ++ [CheckIfExists url; CannotFind url] |}).
Proof.
  intros H. unfold download_file, check_exists, mbind, M_bind, mret, M_ret, msg.
  cbn [fs log]. rewrite bool_decide_eq_false_2 by done. cbn.
  by rewrite <- app_assoc.
Qed.

(** X10.  Without [check_file] a file that is already at the target is
    returned as it is, whatever it holds (even nothing): nothing is
    downloaded and nothing is written. *)
Theorem unchecked_returns_cached (checksum : list byte → string)
    (py_int : string → option Z) (net : Network) url target w data :
  status_code (head net url) = 200 →
  fs w !! target_of url target = Some data →
  download_file checksum py_int net url target false w
  = (Return (target_of url target),
     {| fs := fs w; log := log w ++ [CheckIfExists url; Downloading url] |}).
Proof.
  intros H200 Hd. rewrite download_file_run by done. by rewrite Hd.
Qed.

(** X11.  Files other than the target are never touched, however the call
    ends. *)
Theorem other_files_untouched (checksum : list byte → string)
    (py_int : string → option Z) (net : Network) url target check_file w p :
  p ≠ target_of url target →
  fs (download_file checksum py_int net url target check_file w).2 !! p = fs w !! p.
Proof.
  intros Hp.
  destruct (decide (status_code (head net url) = 200)) as [H200|H200];
    [|by rewrite download_file_absent].
  rewrite download_file_run by done.
  set (w0 := {| fs := fs w; log := log w ++ [CheckIfExists url; Downloading url] |}).
  assert (Hdl : ∀ check,
    fs (download_and_check checksum py_int net url (target_of url target)
          check_file check w0).2 !! p = fs w !! p).
  { intros check.
    destruct (download_and_check_cases checksum py_int net url
                (target_of url target) check_file check w0)
      as [->|[->|[(_ & _ & ->)|(_ & ->)]]]; cbn [snd fs]; try done;
      by rewrite lookup_insert_ne. }
  destruct (fs w !! target_of url target) as [data|]; [|apply Hdl].
  destruct check_file; cbn [negb]; [|done].
  destruct (decide _); [done | apply Hdl].
Qed.


(** What a call that returns leaves behind. *)
Lemma download_returned (checksum : list byte → string)
    (py_int : string → option Z) (net : Network) url target check_file w t w' :
  download_file checksum py_int net url target check_file w = (Return t, w') →
  t = target_of url target
  ∧ ∃ data, fs w' !! t = Some data
            ∧ (check_file = true →
               checksum data = text (get net (url +:+ ".sha256"))).
Proof.
  destruct (decide (status_code (head net url) = 200)) as [H200|H200];
    [|by rewrite download_file_absent].
  rewrite download_file_run by done.
  set (w0 := {| fs := fs w; log := log w ++ [CheckIfExists url; Downloading url] |}).
  set (tgt := target_of url target).
  assert (Hdl : ∀ check,
    (check_file = true → check = Some (text (get net (url +:+ ".sha256")))) →
    download_and_check checksum py_int net url tgt check_file check w0 = (Return t, w') →
    t = tgt ∧ ∃ data, fs w' !! t = Some data
            ∧ (check_file = true →
               checksum data = text (get net (url +:+ ".sha256")))).
  { intros check Hcheck Hrun.
    destruct (download_and_check_cases checksum py_int net url tgt check_file check w0)
      as [H|[H|[(_ & _ & H)|(Hok & H)]]]; rewrite H in Hrun; try done.
    injection Hrun as <- <-. split; [done|]. eexists. cbn [fs].
    split; [apply lookup_insert_eq|].
    intros Ht. destruct Hok as [Hok|Hok]; [congruence|].
    rewrite (Hcheck Ht) in Hok. by injection Hok as ->. }
  destruct (fs w !! tgt) as [data|] eqn:Hd.
  - destruct check_file; cbn [negb].
    + destruct (decide _) as [He|He].
      * intros [= <- <-]. split; [done|]. exists data. cbn [fs].
        split; [done|]. intros _. by injection He as ->.
      * by apply Hdl.
    + intros [= <- <-]. split; [done|]. exists data. by split.
  - apply Hdl. by destruct check_file.
Qed.

(** X13.  A call that returns has a file at the path it returns, the
    target; and under [check_file] the checksum of that file is the text
    served at the companion URL. *)
Theorem returned_file_is_present (checksum : list byte → string)
    (py_int : string → option Z) (net : Network) url target check_file w t w' :
  download_file checksum py_int net url target check_file w = (Return t, w') →
  t = target_of url target
  ∧ ∃ data, fs w' !! t = Some data
            ∧ (check_file = true →
               checksum data = text (get net (url +:+ ".sha256"))).
Proof. apply download_returned. Qed.

(** X14.  A call that returned is repeated for nothing: the same call in
    the world it left returns the same path and writes no file. *)
Theorem repeated_call_is_cached (checksum : list byte → string)
    (py_int : string → option Z) (net : Network) url target check_file w t w1 :
  download_file checksum py_int net url target check_file w = (Return t, w1) →
  ∃ w2, download_file checksum py_int net url target check_file w1 = (Return t, w2)
        ∧ fs w2 = fs w1.
Proof.
  intros Hrun.
  destruct (download_returned _ _ _ _ _ _ _ _ _ Hrun) as (-> & data & Hd & Hsum).
  destruct (decide (status_code (head net url) = 200)) as [H200|H200];
    [|by rewrite download_file_absent in Hrun].
  rewrite download_file_run by done. rewrite Hd.
  destruct check_file; cbn [negb]; [|by eexists].
  rewrite decide_True by (by rewrite Hsum). by eexists.
Qed.

(** X15.  Under [check_file] a local file whose checksum is not the
    expected one does not stand in the way: the artifact is downloaded over
    it, and when the received bytes have the expected checksum the call
    returns and the target holds exactly the received bytes. *)
Theorem stale_copy_is_replaced (checksum : list byte → string)
    (py_int : string → option Z) (net : Network) url target w old s n :
  let tgt := target_of url target in
  let expected := text (get net (url +:+ ".sha256")) in
  let received := concat (iter_content (get net url)) in
  status_code (head net url) = 200 →
  fs w !! tgt = Some old →
  checksum old ≠ expected →
  headers (get net url) !! "content-length"%string = Some s →
  py_int s = Some n →
  checksum received = expected →
  ∃ w', download_file checksum py_int net url target true w = (Return tgt, w')
        ∧ fs w' !! tgt = Some received.
Proof.
  intros tgt expected received H200 Hold Hstale Hs Hn Hok.
  rewrite download_file_run by done. fold tgt. rewrite Hold. cbn [negb].
  fold expected. rewrite decide_False by (intros [= H]; by apply Hstale).
  rewrite (download_and_check_run _ _ _ _ _ _ _ _ s n) by done.
  fold received. rewrite Hok. cbn [andb].
  rewrite bool_decide_eq_false_2 by (intros H; by apply H).
  eexists. split; [done|]. cbn [fs]. apply lookup_insert_eq.
Qed.


(** X17.  Without [check_file] the companion resource plays no part: two
    networks that answer alike for the artifact give the same run, whatever
    they serve at the companion URL. *)
Theorem unchecked_needs_no_companion (checksum : list byte → string)
    (py_int : string → option Z) (net net' : Network) url target w :
  head net url = head net' url → get net url = get net' url →
  download_file checksum py_int net url target false w
  = download_file checksum py_int net' url target false w.
Proof.
  intros Hh Hg. unfold download_file, download_and_check, check_exists.
  by rewrite Hh, Hg.
Qed.

End FetchMore.

(** * Texts: slashes, suffixes and the default target *)

Section Strings.

Implicit Types (s a b t : string) (c sep : ascii).

Lemma str_app_cons c a b : (String c a +:+ b = String c (a +:+ b))%string.
Proof. reflexivity. Qed.

Lemma str_app_nil_l a : ("" +:+ a = a)%string.
Proof. reflexivity. Qed.


Lemma str_app_nil_r a : (a +:+ "" = a)%string.
Proof. induction a as [|c a IH]; [done|]. by rewrite str_app_cons, IH. Qed.


Lemma has_app c a b : PyStr.has c (a +:+ b) = PyStr.has c a || PyStr.has c b.
Proof.
  induction a as [|c' a IH]; [done|]. rewrite str_app_cons. cbn.
  by destruct (decide (c' = c)).
Qed.



Lemma split_str_is_cons sep s : ∃ w ws, Py.split_str sep s = w :: ws.
Proof.
  destruct s as [|c s]; cbn; [by eexists _, _|].
  destruct (decide (c = sep)); [by eexists _, _|].
  destruct (Py.split_str sep s); by eexists _, _.
Qed.

Lemma split_str_none sep s : PyStr.has sep s = false → Py.split_str sep s = [s].
Proof.
  induction s as [|c s IH]; cbn; [done|].
  destruct (decide (c = sep)); [done|]. intros H. by rewrite IH.
Qed.

Lemma split_str_at_sep sep a b :
  Py.split_str sep (a +:+ String sep b) = Py.split_str sep a ++ Py.split_str sep b.
Proof.
  induction a as [|c a IH].
  - rewrite str_app_nil_l. cbn. by rewrite decide_True.
  - rewrite str_app_cons. cbn. destruct (decide (c = sep)); [by rewrite IH|].
    rewrite IH. by destruct (split_str_is_cons sep a) as (w & ws & ->).
Qed.

(** A text has no separator, or a last one. *)
Lemma last_sep sep s :
  PyStr.has sep s = false
  ∨ ∃ a t, s = (a +:+ String sep t)%string ∧ PyStr.has sep t = false.
Proof.
  induction s as [|c s [IH|(a & t & -> & Ht)]]; [by left| |].
  - cbn. destruct (decide (c = sep)) as [->|]; [|by left].
    right. by exists ""%string, s.
  - right. by exists (String c a), t.
Qed.

Lemma last_item_snoc (l : list string) t : Py.last_item (l ++ [t]) = t.
Proof. unfold Py.last_item. apply last_last. Qed.


(** X18.  With no target given the file is named by what follows the last
    slash of the URL: the name holds no slash, and the URL is the name
    itself or ends in a slash and the name. *)
Theorem default_target_is_last_segment url :
  let t := target_of url None in
  PyStr.has "/" t = false
  ∧ (url = t ∨ ∃ a, url = (a +:+ "/" +:+ t)%string).
Proof.
  cbv zeta. unfold target_of.
  destruct (last_sep "/" url) as [H|(a & t & -> & Ht)].
  - rewrite split_str_none by done. cbn. split; [done | by left].
  - rewrite split_str_at_sep, (split_str_none _ t) by done.
    rewrite last_item_snoc. split; [done|]. right. by exists a.
Qed.

End Strings.

(** * get_firefox_download_link and latest_nightly *)

Section NightlyProperties.

Variable system machine : string.
Variable hrefs_of : string → list string.
Variable checksum : list byte → string.
Variable py_int : string → option Z.

Lemma first_link_returns ext (hrefs : list string) u :
  Nightly.first_link ext hrefs = Nightly.Return u
  ↔ ∃ before h after,
      hrefs = before ++ h :: after
      ∧ Forall (λ x, PyStr.endswith x ext = false) before
      ∧ PyStr.endswith h ext = true
      ∧ u = ("https://ftp.mozilla.org" +:+ h)%string.
Proof.
  induction hrefs as [|x hrefs IH]; cbn [Nightly.first_link].
  - split; [done|]. intros (before & h & after & H & _). by destruct before.
  - destruct (PyStr.endswith x ext) eqn:Hx.
    + split.
      * intros [= <-]. by exists [], x, hrefs.
      * intros ([|y before] & h & after & H & Hb & Hh & ->).
        -- by injection H as -> ->.
        -- injection H as -> ->. apply Forall_cons in Hb as [Hy _]. congruence.
    + rewrite IH. split.
      * intros (before & h & after & -> & Hb & Hh & ->).
        exists (x :: before), h, after. split; [done|]. split; [|done].
        by constructor.
      * intros ([|y before] & h & after & H & Hb & Hh & ->).
        -- injection H as -> ->. congruence.
        -- injection H as -> ->. apply Forall_cons in Hb as [_ Hb].
           by exists before, h, after.
Qed.

Lemma first_link_raises ext (hrefs : list string) e :
  Nightly.first_link ext hrefs = Nightly.Raise e
  ↔ e = Nightly.PlainException ∧ Forall (λ x, PyStr.endswith x ext = false) hrefs.
Proof.
  induction hrefs as [|x hrefs IH]; cbn [Nightly.first_link].
  - split; [by intros [= <-] | by intros [-> _]].
  - destruct (PyStr.endswith x ext) eqn:Hx.
    + split; [done|]. intros [_ H]. apply Forall_cons in H as [H _]. congruence.
    + rewrite IH. split; intros [-> H]; (split; [done|]).
      * by constructor.
      * by apply Forall_cons in H as [_ H].
Qed.

(** X19.  On a platform that has an extension, the link returned is the
    host followed by the first [href] of the page that ends in the
    extension, earlier anchors that do not end in it being passed over; and
    the call raises the plain [Exception] exactly when no [href] of the
    page ends in it. *)
Theorem download_link_is_first_match (net : Fetch.Network) ext :
  Nightly.extension system machine = Nightly.Return ext →
  let hrefs := hrefs_of (Fetch.text (Fetch.get net Nightly.link)) in
  let run := Nightly.get_firefox_download_link system machine hrefs_of net in
  (∀ u, run = Nightly.Return u
        ↔ ∃ before h after,
            hrefs = before ++ h :: after
            ∧ Forall (λ x, PyStr.endswith x ext = false) before
            ∧ PyStr.endswith h ext = true
            ∧ u = ("https://ftp.mozilla.org" +:+ h)%string)
  ∧ (run = Nightly.Raise Nightly.PlainException
     ↔ Forall (λ x, PyStr.endswith x ext = false) hrefs).
Proof.
  intros Hext hrefs run. subst run. unfold Nightly.get_firefox_download_link.
  rewrite Hext. fold hrefs. split.
  - intros u. apply first_link_returns.
  - rewrite first_link_raises. split; [by intros [_ ?] | by intros ?].
Qed.

(** X20.  What the call can give, by platform: on Darwin a link that ends
    in [.dmg], on Linux one that ends in [.linux-MACHINE.tar.bz2], each on
    the host [ftp.mozilla.org], or the plain [Exception]; on any other
    platform [NotImplementedError] with the name of the platform, whatever
    the page holds. *)
Theorem download_link_by_platform (net : Fetch.Network) :
  match Nightly.get_firefox_download_link system machine hrefs_of net with
  | Nightly.Return u =>
      ∃ h, u = ("https://ftp.mozilla.org" +:+ h)%string
           ∧ ((system = "Darwin"%string ∧ PyStr.endswith h ".dmg" = true)
              ∨ (system = "Linux"%string
                 ∧ PyStr.endswith h (".linux-" +:+ machine +:+ ".tar.bz2") = true))
  | Nightly.Raise e =>
      (e = Nightly.PlainException
       ∧ (system = "Darwin"%string ∨ system = "Linux"%string))
      ∨ (e = Nightly.NotImplementedError system
         ∧ system ≠ "Darwin"%string ∧ system ≠ "Linux"%string)
  end.
Proof.
  unfold Nightly.get_firefox_download_link, Nightly.extension.
  set (hrefs := hrefs_of _).
  destruct (decide (system = "Darwin"%string)) as [Hd|Hd];
    [|destruct (decide (system = "Linux"%string)) as [Hl|Hl]].
  - destruct (Nightly.first_link ".dmg" hrefs) as [u|e] eqn:H.
    + apply first_link_returns in H as (_ & h & _ & _ & _ & Hh & ->).
      exists h. split; [done|]. by left.
    + apply first_link_raises in H as [-> _]. left. split; [done | by left].
  - destruct (Nightly.first_link _ hrefs) as [u|e] eqn:H.
    + apply first_link_returns in H as (_ & h & _ & _ & _ & Hh & ->).
      exists h. split; [done|]. by right.
    + apply first_link_raises in H as [-> _]. left. split; [done | by right].
  - by right.
Qed.

(** The messages of [download_file] never depend on what was logged
    before, and the calls of the host are not its business. *)
Lemma download_unchecked_calls (net : Fetch.Network) url h :
  Nightly.calls (Nightly.download_unchecked checksum py_int net url h).2
  = Nightly.calls h.
Proof.
  unfold Nightly.download_unchecked.
  by destruct (Fetch.download_file _ _ _ _ _ _ _) as [[?|?] ?].
Qed.

(** X21.  When the entry of [latest_nightly] raises (no link, an artifact
    that is not there, a download that fails), no command has been run, the
    block of the [with] statement is not run, and the exit path is not
    run either. *)
Theorem failed_entry_runs_nothing (net : Fetch.Network) {A}
    (body : option string → Nightly.Host → Nightly.result A * Nightly.Host)
    binary h e h1 :
  Nightly.enter system machine hrefs_of checksum py_int net binary h
  = (Nightly.Raise e, h1) →
  Nightly.calls h1 = Nightly.calls h
  ∧ binary = None
  ∧ Nightly.with_latest_nightly system machine hrefs_of checksum py_int net
      binary body h
    = (Nightly.Raise e, h1).
Proof.
  intros Hrun. split; [|split].
  - unfold Nightly.enter in Hrun. destruct binary as [b|]; [done|].
    destruct (Nightly.get_firefox_download_link _ _ _ _) as [archive|e'];
      [|by injection Hrun as <- <-].
    pose proof (download_unchecked_calls net archive
      (Nightly.say (Nightly.Fetching (Fetch.Downloading archive)) h)) as Hc.
    destruct (Nightly.download_unchecked _ _ _ _ _) as [[target|e'] h'].
    + repeat case_decide; done.
    + injection Hrun as <- <-. exact Hc.
  - by destruct binary.
  - unfold Nightly.with_latest_nightly. by rewrite Hrun.
Qed.


(** X23.  The nightly is taken without any check: two networks that serve
    the same page of links and answer alike for the artifact that this
    page names give the same entry, whatever they serve as its
    checksum. *)
Theorem nightly_is_unverified (net net' : Fetch.Network) h :
  Fetch.get net Nightly.link = Fetch.get net' Nightly.link →
  (∀ archive,
     Nightly.get_firefox_download_link system machine hrefs_of net
     = Nightly.Return archive →
     Fetch.head net archive = Fetch.head net' archive
     ∧ Fetch.get net archive = Fetch.get net' archive) →
  Nightly.enter system machine hrefs_of checksum py_int net None h
  = Nightly.enter system machine hrefs_of checksum py_int net' None h.
Proof.
  intros Hpage Hsame. unfold Nightly.enter.
  assert (Hlink : Nightly.get_firefox_download_link system machine hrefs_of net'
                  = Nightly.get_firefox_download_link system machine hrefs_of net).
  { unfold Nightly.get_firefox_download_link. by rewrite Hpage. }
  rewrite Hlink.
  destruct (Nightly.get_firefox_download_link system machine hrefs_of net)
    as [archive|e] eqn:Hl; [|done].
  destruct (Hsame archive eq_refl) as [Hh Hg].
  unfold Nightly.download_unchecked.
  by rewrite (unchecked_ignores_companion checksum py_int net net' archive None _ Hh Hg).
Qed.

End NightlyProperties.

(** * verify *)

Section VerifyProperties.

Lemma feed_whole turns n (rest fed : list byte) :
  (0 < n)%nat → (length rest ≤ turns)%nat →
  Verify.feed turns n rest fed = fed ++ rest.
Proof.
  intros Hn. revert rest fed.
  induction turns as [|turns IH]; intros rest fed Hlen.
  - destruct rest; [|cbn in Hlen; lia]. cbn.
    rewrite take_nil. cbn. by rewrite app_nil_r.
  - cbn [Verify.feed]. unfold Verify.read. cbn [fst snd].
    destruct (decide (take n rest = [])) as [He|He].
    + destruct rest as [|b rest]; [by rewrite app_nil_r|].
      destruct n; [lia | done].
    + rewrite IH.
      * by rewrite <- app_assoc, take_drop.
      * rewrite length_drop. destruct rest; [by rewrite take_nil in He|].
        cbn [length] in *. lia.
Qed.

Lemma hash_file_is_whole_digest_aux (content : list byte) :
  Verify.hash_file content = Sha256.hexdigest content.
Proof.
  unfold Verify.hash_file. by rewrite feed_whole by lia.
Qed.

(** X24.  The digest that [verify] computes in chunks of 4096 bytes is the
    digest of the whole file, whatever its size: no byte is left out or
    given twice. *)
Theorem hash_file_is_whole_digest (content : list byte) :
  Verify.hash_file content = Sha256.hexdigest content
  ∧ ∀ n, (0 < n)%nat → Verify.feed (length content) n content [] = content.
Proof.
  split; [apply hash_file_is_whole_digest_aux|].
  intros n Hn. by rewrite feed_whole by lia.
Qed.

Lemma hexdigit_plain (x : Z) :
  Sha256.hexdigit (Z.land x 15) ≠ "010"%char
  ∧ Sha256.hexdigit (Z.land x 15) ≠ "013"%char.
Proof.
  change 15 with (Z.ones 4). rewrite Z.land_ones by lia.
  pose proof (Z.mod_pos_bound x (2 ^ 4) eq_refl) as Hr.
  set (r := x `mod` 2 ^ 4) in *.
  assert (r = 0 ∨ r = 1 ∨ r = 2 ∨ r = 3 ∨ r = 4 ∨ r = 5 ∨ r = 6 ∨ r = 7
          ∨ r = 8 ∨ r = 9 ∨ r = 10 ∨ r = 11 ∨ r = 12 ∨ r = 13 ∨ r = 14 ∨ r = 15)
    as H by lia.
  repeat (destruct H as [->|H]; [by vm_compute|]). subst r. rewrite H. by vm_compute.
Qed.

Lemma hexword_plain c (w : Z) :
  c = "010"%char ∨ c = "013"%char → PyStr.has c (Sha256.hexword w) = false.
Proof.
  intros Hc. unfold Sha256.hexword.
  cbn [map string_of_list_ascii PyStr.has].
  repeat (rewrite decide_False;
          [|destruct Hc as [-> | ->]; apply hexdigit_plain]).
  done.
Qed.

Lemma concat_plain c (l : list string) :
  Forall (λ s, PyStr.has c s = false) l →
  PyStr.has c (String.concat "" l) = false.
Proof.
  induction 1 as [|s l Hs Hl IH]; [done|].
  cbn [String.concat]. destruct l; [done|].
  by rewrite !has_app, Hs, IH.
Qed.

(** A digest in hexadecimal holds no line feed and no carriage return. *)
Lemma hexdigest_plain c (m : list byte) :
  c = "010"%char ∨ c = "013"%char → PyStr.has c (Sha256.hexdigest m) = false.
Proof.
  intros Hc. unfold Sha256.hexdigest. apply concat_plain.
  apply Forall_fmap, Forall_forall. intros w _. by apply hexword_plain.
Qed.

Lemma has_of_bytes c (l : list byte) :
  PyStr.has c (string_of_list_byte l) = false → byte_of_ascii c ∉ l.
Proof.
  induction l as [|b l IH]; [intros _; apply not_elem_of_nil|].
  change (string_of_list_byte (b :: l))
    with (String (ascii_of_byte b) (string_of_list_byte l)).
  cbn [PyStr.has]. destruct (decide (ascii_of_byte b = c)) as [|Hne]; [done|].
  intros H. apply not_elem_of_cons. split; [|by apply IH].
  intros <-. apply Hne. apply ascii_of_byte_of_ascii.
Qed.

Lemma universal_newlines_plain (s : list byte) :
  "010"%byte ∉ Verify.universal_newlines s →
  ("010"%byte ∉ s) ∧ ("013"%byte ∉ s).
Proof.
  induction s as [|c s IH]; [intros _; split; apply not_elem_of_nil|].
  cbn [Verify.universal_newlines].
  destruct (decide (c = "013"%byte)) as [->|Hc].
  - intros H. exfalso. apply H. apply list_elem_of_here.
  - intros H. apply not_elem_of_cons in H as [H1 H2].
    destruct (IH H2) as [H3 H4].
    split; apply not_elem_of_cons; split; done.
Qed.


(** X26.  A companion file that holds a line break anywhere, as one written
    with a final new line does, never passes: [verify] raises the
    [ValueError] of a wrong hash whatever the file holds
    ([UnicodeDecodeError] when the companion is no UTF-8 text), and the
    signer is not asked. *)
Theorem verify_rejects_line_breaks (SignerError : Type)
    (signer_verify : option string → option string → string → list byte
                     → gmap string (list byte) → option SignerError)
    filename pem_file pem_password (fs : gmap string (list byte)) content companion :
  fs !! filename = Some content →
  fs !! (filename +:+ ".sha256")%string = Some companion →
  "010"%byte ∈ companion ∨ "013"%byte ∈ companion →
  Verify.verify SignerError signer_verify filename pem_file pem_password fs
  = Some (if Verify.valid_utf8 companion then Verify.WrongHash
          else Verify.UnicodeDecodeError).
Proof.
  intros Hfile Hcomp Hbreak. unfold Verify.verify.
  rewrite Hfile, Hcomp, hash_file_is_whole_digest_aux.
  unfold Verify.read_text. destruct (Verify.valid_utf8 companion); [|done].
  rewrite decide_True; [done|].
  intros Heq.
  pose proof (hexdigest_plain "010"%char content (or_introl eq_refl)) as Hplain.
  rewrite Heq in Hplain.
  apply has_of_bytes in Hplain.
  change (byte_of_ascii "010") with "010"%byte in Hplain.
  apply universal_newlines_plain in Hplain as [H1 H2].
  by destruct Hbreak.
Qed.

End VerifyProperties.

(** * Closed instances of the further properties *)

Lemma adding_keeps_counters_witness :
  counters_agree DiffInfo.init
  ∧ counters_agree (DiffInfo.update DiffInfo.init current_ab previous_ac).1.
Proof.
  split; [exact counters_agree_init|].
  exact (proj2 (proj2 (proj2 (proj2
    (adding_keeps_counters DiffInfo.init [] current_ab previous_ac
       counters_agree_init))))).
Defined.

Lemma no_colon_ab : Forall (λ p, ":"%byte ∉ _b p) (Py.keys current_ab).
Proof.
  constructor; [intros H; absent_in H|].
  constructor; [intros H; absent_in H|]. constructor.
Defined.

Lemma no_colon_ac : Forall (λ p, ":"%byte ∉ _b p) (Py.keys previous_ac).
Proof.
  constructor; [intros H; absent_in H|].
  constructor; [intros H; absent_in H|]. constructor.
Defined.

Lemma iter_yields_pairs_witness :
  Forall (λ p, ":"%byte ∉ _b p) (Py.keys current_ab)
  ∧ Forall (λ p, ":"%byte ∉ _b p) (Py.keys previous_ac)
  ∧ Forall2 (λ pieces r, ∃ k p, r = record k (_b p) ∧ pieces = [tag k; _b p])
      (DiffInfo.iter (DiffInfo.update DiffInfo.init current_ab previous_ac).1)
      (DiffInfo._info (DiffInfo.update DiffInfo.init current_ab previous_ac).1).
Proof.
  split; [exact no_colon_ab|]. split; [exact no_colon_ac|].
  exact (iter_yields_pairs current_ab previous_ac no_colon_ab no_colon_ac).
Defined.

Lemma update_same_snapshot_witness :
  Py.dict_wf current_ab
  ∧ DiffInfo.update DiffInfo.init current_ab current_ab = (DiffInfo.init, []).
Proof.
  split; [exact current_ab_wf|].
  exact (update_same_snapshot DiffInfo.init current_ab current_ab_wf).
Defined.

Lemma previous_ac_wf : Py.dict_wf previous_ac.
Proof. unfold Py.dict_wf. apply (bool_decide_unpack _). vm_compute. exact I. Defined.

Lemma update_swapped_witness :
  Py.dict_wf current_ab ∧ Py.dict_wf previous_ac
  ∧ (record NEW (_b "b") ∈ produced DiffInfo.init current_ab previous_ac
     ↔ record DELETED (_b "b") ∈ produced DiffInfo.init previous_ac current_ab).
Proof.
  split; [exact current_ab_wf|]. split; [exact previous_ac_wf|].
  exact (proj1 (update_swapped DiffInfo.init DiffInfo.init current_ab previous_ac
                  current_ab_wf previous_ac_wf "b"%string)).
Defined.

Lemma absent_artifact_raises_witness :
  Fetch.status_code (Fetch.head (serve length_3 [_b "abc"] 200 abc_digest)
                       "https://ftp.mozilla.org/none") ≠ 200
  ∧ (download_file_sha256 (serve length_3 [_b "abc"] 200 abc_digest)
       "https://ftp.mozilla.org/none" None true empty_world).1
    = Fetch.Raise (Fetch.ArchiveNotFound "https://ftp.mozilla.org/none").
Proof.
  assert (H : Fetch.status_code (Fetch.head (serve length_3 [_b "abc"] 200 abc_digest)
                "https://ftp.mozilla.org/none") ≠ 200) by (vm_compute; discriminate).
  split; [exact H|]. unfold download_file_sha256.
  by rewrite (absent_artifact_raises Sha256.hexdigest decimal_int _ _ None true
                empty_world H).
Defined.

Lemma unchecked_returns_cached_witness :
  Fetch.status_code (Fetch.head (serve length_3 [_b "abc"] 200 abc_digest) artifact) = 200
  ∧ Fetch.fs cached_world !! target_of artifact None = Some (_b "old")
  ∧ (download_file_sha256 (serve length_3 [_b "abc"] 200 abc_digest)
       artifact None false cached_world).1
    = Fetch.Return "firefox.dmg"%string.
Proof.
  assert (H1 : Fetch.status_code
                 (Fetch.head (serve length_3 [_b "abc"] 200 abc_digest) artifact) = 200)
    by reflexivity.
  assert (H2 : Fetch.fs cached_world !! target_of artifact None = Some (_b "old"))
    by (vm_compute; reflexivity).
  split; [exact H1|]. split; [exact H2|]. unfold download_file_sha256.
  by rewrite (unchecked_returns_cached Sha256.hexdigest decimal_int _ artifact None
                cached_world (_b "old") H1 H2).
Defined.

Lemma other_files_untouched_witness :
  "notes.txt"%string ≠ target_of artifact None
  ∧ Fetch.fs (download_file_sha256 (serve length_3 [_b "abc"] 200 abc_digest)
                artifact None true cached_world).2 !! "notes.txt"%string
    = Fetch.fs cached_world !! "notes.txt"%string.
Proof.
  assert (H : "notes.txt"%string ≠ target_of artifact None)
    by (vm_compute; discriminate).
  split; [exact H|].
  exact (other_files_untouched Sha256.hexdigest decimal_int _ artifact None true
           cached_world "notes.txt"%string H).
Defined.

Lemma good_run :
  ∃ w, Fetch.download_file Sha256.hexdigest decimal_int
         (serve length_3 [_b "abc"] 200 abc_digest) artifact None true empty_world
       = (Fetch.Return "firefox.dmg"%string, w).
Proof. eexists. vm_compute. reflexivity. Defined.

Lemma returned_file_is_present_witness :
  ∃ w, Fetch.download_file Sha256.hexdigest decimal_int
         (serve length_3 [_b "abc"] 200 abc_digest) artifact None true empty_world
       = (Fetch.Return "firefox.dmg"%string, w)
       ∧ ∃ data, Fetch.fs w !! "firefox.dmg"%string = Some data.
Proof.
  destruct good_run as [w Hw]. exists w. split; [exact Hw|].
  destruct (returned_file_is_present Sha256.hexdigest decimal_int
              (serve length_3 [_b "abc"] 200 abc_digest) artifact None true
              empty_world "firefox.dmg" w Hw) as (_ & data & Hdata & _).
  exists data. exact Hdata.
Defined.

Lemma repeated_call_is_cached_witness :
  ∃ w, Fetch.download_file Sha256.hexdigest decimal_int
         (serve length_3 [_b "abc"] 200 abc_digest) artifact None true empty_world
       = (Fetch.Return "firefox.dmg"%string, w)
       ∧ ∃ w2, Fetch.download_file Sha256.hexdigest decimal_int
                 (serve length_3 [_b "abc"] 200 abc_digest) artifact None true w
               = (Fetch.Return "firefox.dmg"%string, w2)
               ∧ Fetch.fs w2 = Fetch.fs w.
Proof.
  destruct good_run as [w Hw]. exists w. split; [exact Hw|].
  exact (repeated_call_is_cached Sha256.hexdigest decimal_int
           (serve length_3 [_b "abc"] 200 abc_digest) artifact None true
           empty_world "firefox.dmg" w Hw).
Defined.

Lemma stale_copy_is_replaced_witness :
  Fetch.fs cached_world !! target_of artifact None = Some (_b "old")
  ∧ Sha256.hexdigest (_b "old") ≠ abc_digest
  ∧ ∃ w', Fetch.download_file Sha256.hexdigest decimal_int
            (serve length_3 [_b "abc"] 200 abc_digest) artifact None true cached_world
          = (Fetch.Return (target_of artifact None), w')
          ∧ Fetch.fs w' !! target_of artifact None
            = Some (concat (Fetch.iter_content
                              (Fetch.get (serve length_3 [_b "abc"] 200 abc_digest)
                                 artifact))).
Proof.
  assert (H1 : Fetch.fs cached_world !! target_of artifact None = Some (_b "old"))
    by (vm_compute; reflexivity).
  assert (H2 : Sha256.hexdigest (_b "old") ≠ abc_digest)
    by (vm_compute; discriminate).
  split; [exact H1|]. split; [exact H2|].
  refine (stale_copy_is_replaced Sha256.hexdigest decimal_int
            (serve length_3 [_b "abc"] 200 abc_digest) artifact None cached_world
            (_b "old") "3" 3 _ H1 _ _ _ _).
  - vm_compute. reflexivity.
  - vm_compute. discriminate.
  - vm_compute. reflexivity.
  - vm_compute. reflexivity.
  - vm_compute. reflexivity.
Defined.


Lemma unchecked_needs_no_companion_witness :
  Fetch.get (serve length_3 [_b "abc"] 200 abc_digest) artifact
  = Fetch.get (serve length_3 [_b "abc"] 404 "Not Found") artifact
  ∧ Fetch.download_file Sha256.hexdigest decimal_int
      (serve length_3 [_b "abc"] 200 abc_digest) artifact None false empty_world
    = Fetch.download_file Sha256.hexdigest decimal_int
        (serve length_3 [_b "abc"] 404 "Not Found") artifact None false empty_world.
Proof.
  assert (Hh : Fetch.head (serve length_3 [_b "abc"] 200 abc_digest) artifact
               = Fetch.head (serve length_3 [_b "abc"] 404 "Not Found") artifact)
    by (vm_compute; reflexivity).
  assert (Hg : Fetch.get (serve length_3 [_b "abc"] 200 abc_digest) artifact
               = Fetch.get (serve length_3 [_b "abc"] 404 "Not Found") artifact)
    by (vm_compute; reflexivity).
  split; [exact Hg|].
  exact (unchecked_needs_no_companion Sha256.hexdigest decimal_int
           (serve length_3 [_b "abc"] 200 abc_digest)
           (serve length_3 [_b "abc"] 404 "Not Found") artifact None empty_world
           Hh Hg).
Defined.

Lemma download_link_is_first_match_witness :
  Nightly.extension "Linux" "x86_64" = Nightly.Return ".linux-x86_64.tar.bz2"%string
  ∧ Nightly.get_firefox_download_link "Linux" "x86_64" one_per_line nightly_server
    = Nightly.Return nightly_archive.
Proof.
  assert (H : Nightly.extension "Linux" "x86_64"
              = Nightly.Return ".linux-x86_64.tar.bz2"%string)
    by (vm_compute; reflexivity).
  split; [exact H|].
  apply (proj1 (download_link_is_first_match "Linux" "x86_64" one_per_line
                  nightly_server ".linux-x86_64.tar.bz2" H) nightly_archive).
  exists ["/pub/firefox/nightly/"%string], nightly_href, [].
  split; [vm_compute; reflexivity|].
  split; [constructor; [vm_compute; reflexivity | constructor]|].
  split; vm_compute; reflexivity.
Defined.



Lemma failed_entry :
  Nightly.enter "Linux" "x86_64" no_links Sha256.hexdigest decimal_int
    nightly_server None empty_host
  = (Nightly.Raise Nightly.PlainException, empty_host).
Proof. vm_compute. reflexivity. Defined.

Lemma failed_entry_runs_nothing_witness :
  Nightly.enter "Linux" "x86_64" no_links Sha256.hexdigest decimal_int
    nightly_server None empty_host
  = (Nightly.Raise Nightly.PlainException, empty_host)
  ∧ Nightly.with_latest_nightly "Linux" "x86_64" no_links Sha256.hexdigest decimal_int
      nightly_server None (λ b h, (Nightly.Return b, h)) empty_host
    = (Nightly.Raise Nightly.PlainException, empty_host).
Proof.
  split; [exact failed_entry|].
  exact (proj2 (proj2
    (failed_entry_runs_nothing "Linux" "x86_64" no_links Sha256.hexdigest decimal_int
       nightly_server (λ b h, (Nightly.Return b, h)) None empty_host
       Nightly.PlainException empty_host failed_entry))).
Defined.

Lemma nightly_is_unverified_witness :
  Fetch.get nightly_server (nightly_archive +:+ ".sha256")
  ≠ Fetch.get nightly_server_with_companion (nightly_archive +:+ ".sha256")
  ∧ Nightly.enter "Linux" "x86_64" one_per_line Sha256.hexdigest decimal_int
      nightly_server None empty_host
    = Nightly.enter "Linux" "x86_64" one_per_line Sha256.hexdigest decimal_int
        nightly_server_with_companion None empty_host.
Proof.
  split; [vm_compute; discriminate|].
  refine (nightly_is_unverified "Linux" "x86_64" one_per_line Sha256.hexdigest
            decimal_int nightly_server nightly_server_with_companion empty_host _ _).
  - vm_compute. reflexivity.
  - intros archive Ha. vm_compute in Ha. injection Ha as <-.
    split; vm_compute; reflexivity.
Defined.

Lemma verify_rejects_line_breaks_witness :
  signed_files !! "firefox.dmg"%string = Some (_b "abc")
  ∧ signed_files !! ("firefox.dmg" +:+ ".sha256")%string
    = Some (_b abc_digest ++ ["010"%byte])
  ∧ Verify.verify unit accept_all "firefox.dmg" None None signed_files
    = Some Verify.WrongHash.
Proof.
  assert (H1 : signed_files !! "firefox.dmg"%string = Some (_b "abc"))
    by (vm_compute; reflexivity).
  assert (H2 : signed_files !! ("firefox.dmg" +:+ ".sha256")%string
               = Some (_b abc_digest ++ ["010"%byte]))
    by (vm_compute; reflexivity).
  assert (H3 : "010"%byte ∈ _b abc_digest ++ ["010"%byte]
               ∨ "013"%byte ∈ _b abc_digest ++ ["010"%byte]).
  { left. apply elem_of_app. right. apply list_elem_of_here. }
  split; [exact H1|]. split; [exact H2|].
  rewrite (verify_rejects_line_breaks unit accept_all "firefox.dmg" None None
             signed_files (_b "abc") (_b abc_digest ++ ["010"%byte]) H1 H2 H3).
  vm_compute. reflexivity.
Defined.

Lemma hash_file_is_whole_digest_witness :
  (0 < 2)%nat ∧ Verify.feed (length (_b "abc")) 2 (_b "abc") [] = _b "abc".
Proof.
  split; [exact (Nat.lt_0_succ 1)|].
  exact (proj2 (hash_file_is_whole_digest (_b "abc")) 2%nat (Nat.lt_0_succ 1)).
Defined.
